(** * Eidetic LSTM cell and ECO network: a shallow embedding

    The two source files define model graphs on top of an external tensor
    framework (paddle / paddle.fluid).  The framework is not part of the
    repository, so its operators are taken as an interface (a type class);
    the Python code of the repository (control flow, tuple unpacking, shape
    checks, raised exceptions, the mutable feature buffer) is embedded as
    Rocq functions over that interface.  A free instance, whose tensors are
    the nodes of the computation graph together with their inferred shape,
    is used to run the definitions on concrete inputs. *)

From Stdlib Require Import ZArith String List Lia.
From stdpp Require Import base list.
Import ListNotations.

Local Open Scope string_scope.
Local Open Scope Z_scope.
Local Open Scope list_scope.
Set Warnings "-register-all".

(** ** Python exceptions, results and the state-and-exception monad *)

(** The exceptions the two source files can raise.  [ValueError] carries the
    message template and its [format] arguments (a shape, or an integer as a
    one-element list).  [NoneTypeError op] is the failure of the framework
    function [op] handed [None] instead of a tensor. *)
Inductive exn : Type :=
| ValueError (msg : string) (args : list (list Z))
| UnboundLocalError (var : string)
| NoneTypeError (op : string)
| IndexError (what : string).

Inductive result (A : Type) : Type :=
| Ok (a : A)
| Raise (e : exn).
Arguments Ok {A} a.
Arguments Raise {A} e.

(** A computation reads and writes a state [S]; an exception keeps the state
    reached when it was raised, as in Python. *)
Definition Py (S A : Type) : Type := S -> result A * S.

Definition ret {S A} (a : A) : Py S A := fun s => (Ok a, s).
Definition raise {S A} (e : exn) : Py S A := fun s => (Raise e, s).
Definition bind {S A B} (m : Py S A) (f : A -> Py S B) : Py S B :=
  fun s => match m s with
           | (Ok a, s') => f a s'
           | (Raise e, s') => (Raise e, s')
           end.
Definition lift {S A} (r : result A) : Py S A := fun s => (r, s).
Definition get {S} : Py S S := fun s => (Ok s, s).
Definition put {S} (s : S) : Py S unit := fun _ => (Ok tt, s).

Declare Scope py_scope.
Delimit Scope py_scope with py.
Notation "'let!' x ':=' m 'in' k" := (bind m (fun x => k))
  (at level 10, x pattern, m at level 100, k at level 200) : py_scope.

(** Python values that are either a tensor or [None]. *)
Inductive pyval (T : Type) : Type :=
| PyNone
| PyTensor (t : T).
Arguments PyNone {T}.
Arguments PyTensor {T} t.

(** An [int] or a tuple of ints (a kernel shape). *)
Inductive int_or_tuple : Type :=
| PInt (n : Z)
| PTuple (l : list Z).

(** A Python [float], by its literal. *)
Definition pyfloat : Type := string.

(** The framework names the parameters a layer creates with a global
    counter; a computation that creates parameters has it as its state. *)
Definition fresh : Py nat nat := fun n => (Ok n, S n).

(** Number of elements of a shape. *)
Definition numel (s : list Z) : Z := fold_right Z.mul 1 s.

(** The shape [reshape] produces: the entry [-1] of the target is replaced by
    the number of elements divided by the product of the other entries. *)
Definition known (target : list Z) : Z :=
  numel (List.filter (fun d => negb (d =? -1)) target).

Definition infer_reshape (src target : list Z) : list Z :=
  map (fun d => if d =? -1 then numel src / known target else d) target.

(** A reshape the framework accepts on concrete shapes: every resulting
    dimension is positive and the number of elements is preserved. *)
Definition valid_reshape (src target : list Z) : Prop :=
  Forall (fun d => 0 < d) (infer_reshape src target) /\
  numel (infer_reshape src target) = numel src.

(** ** Python lists *)

(** [i] as a position in a list of length [len]: a negative index counts
    from the end, and an index out of range raises [IndexError]. *)
Definition py_index (what : string) (i : Z) (len : nat) : result nat :=
  if (0 <=? i) && (i <? Z.of_nat len) then Ok (Z.to_nat i)
  else if (- Z.of_nat len <=? i) && (i <? 0) then Ok (Z.to_nat (Z.of_nat len + i))
  else Raise (IndexError what).

(** [l[i]] *)
Definition py_getitem {A} (l : list A) (i : Z) : result A :=
  match py_index "list index out of range" i (length l) with
  | Ok n => match l !! n with
            | Some a => Ok a
            | None => Raise (IndexError "list index out of range")
            end
  | Raise e => Raise e
  end.

(** [l[i] = a] *)
Definition py_setitem {A} (l : list A) (i : Z) (a : A) : result (list A) :=
  match py_index "list assignment index out of range" i (length l) with
  | Ok n => Ok (<[n := a]> l)
  | Raise e => Raise e
  end.

(** The bound [k] of a slice [l[:k]] or [l[k:]], clipped to the list. *)
Definition py_slice_bound (k : Z) (len : nat) : nat :=
  if k <? 0 then Z.to_nat (Z.max 0 (Z.of_nat len + k))
  else Z.to_nat (Z.min k (Z.of_nat len)).

(** [l[k:]] *)
Definition py_slice_from {A} (l : list A) (k : Z) : list A :=
  drop (py_slice_bound k (length l)) l.

(** [l[:k] = r]: the first elements are replaced by those of [r]. *)
Definition py_assign_slice_to {A} (l : list A) (k : Z) (r : list A) : list A :=
  r ++ drop (py_slice_bound k (length l)) l.

(** ** src/e3d_lstm/src/layers/rnn_cellp.py *)

Module E3D.

(** The part of [paddle.fluid.layers] the cell uses.  The operators build
    the graph and are total functions here: what the framework itself
    rejects is not modelled.  An operator that creates parameters
    ([conv2d], [conv3d], [layer_norm]) takes a number that stands for the
    names the framework's unique-name generator gives to the parameters of
    this call: two calls never share parameters. *)
Class FluidLayers : Type := {
  Tensor : Type;
  shape : Tensor -> list Z;
  conv2d : nat -> Tensor -> Z -> int_or_tuple -> string -> Tensor;
  conv3d : nat -> Tensor -> Z -> int_or_tuple -> string -> string -> Tensor;
  layer_norm : nat -> Tensor -> Tensor;
  (** [split_section x num dim i]: output number [i] of
      [split(x, num, dim)], which has exactly [num] outputs. *)
  split_section : Tensor -> nat -> Z -> nat -> Tensor;
  sigmoid : Tensor -> Tensor;
  tanh : Tensor -> Tensor;
  add : Tensor -> Tensor -> Tensor;
  add_float : Tensor -> pyfloat -> Tensor;
  mul : Tensor -> Tensor -> Tensor;
  reshape : Tensor -> list Z -> Tensor;
  matmul : Tensor -> Tensor -> bool -> bool -> Tensor;
  softmax : Tensor -> Z -> Tensor;
  concat : list Tensor -> Z -> Tensor
}.

(** What the framework guarantees about the shapes of the operators of
    [_attn], on three-dimensional operands. *)
Class FluidShapeLaws (F : FluidLayers) : Prop := {
  shape_reshape : forall x target,
    valid_reshape (shape x) target ->
    shape (reshape x target) = infer_reshape (shape x) target;
  shape_matmul_nt : forall x y b m k p,
    shape x = [b; m; k] -> shape y = [b; p; k] ->
    shape (matmul x y false true) = [b; m; p];
  shape_matmul_nn : forall x y b m k p,
    shape x = [b; m; k] -> shape y = [b; k; p] ->
    shape (matmul x y false false) = [b; m; p];
  shape_softmax : forall x axis, shape (softmax x axis) = shape x
}.

Section Cell.
Context {F : FluidLayers}.

Record EideticLSTMCell : Type := {
  _conv_ndims : Z;
  _input_shape : list Z;
  _output_channels : Z;
  _kernel_shape : int_or_tuple;
  _layer_norm : bool;
  _norm_gain : pyfloat;
  _norm_shift : pyfloat;
  _forget_bias : pyfloat;
  _layer_name : string
}.

(** [EideticLSTMCell.__init__] *)
Definition EideticLSTMCell_init (conv_ndims : Z) (input_shape : list Z)
    (output_channels : Z) (kernel_shape : int_or_tuple) (layer_norm : bool)
    (norm_gain norm_shift forget_bias : pyfloat) (name : string)
  : result EideticLSTMCell :=
  if negb (conv_ndims =? Z.of_nat (length input_shape) - 1) then
    Raise (ValueError "Invalid input_shape {} for conv_ndims={}."
                      [input_shape; [conv_ndims]])
  else
    Ok {| _conv_ndims := conv_ndims;
          _input_shape := input_shape;
          _output_channels := output_channels;
          _kernel_shape := kernel_shape;
          _layer_norm := layer_norm;
          _norm_gain := norm_gain;
          _norm_shift := norm_shift;
          _forget_bias := forget_bias;
          _layer_name := name |}.

(** [Eidetic2DLSTMCell.__init__] and [Eidetic3DLSTMCell.__init__] *)
Definition Eidetic2DLSTMCell_init (name : string) (input_shape : list Z)
    (output_channels : Z) (kernel_shape : int_or_tuple) (layer_norm : bool)
    (norm_gain norm_shift forget_bias : pyfloat) : result EideticLSTMCell :=
  EideticLSTMCell_init 2 input_shape output_channels kernel_shape layer_norm
    norm_gain norm_shift forget_bias name.

Definition Eidetic3DLSTMCell_init (name : string) (input_shape : list Z)
    (output_channels : Z) (kernel_shape : int_or_tuple) (layer_norm : bool)
    (norm_gain norm_shift forget_bias : pyfloat) : result EideticLSTMCell :=
  EideticLSTMCell_init 3 input_shape output_channels kernel_shape layer_norm
    norm_gain norm_shift forget_bias name.

(** A framework function needs a tensor and fails on [None]. *)
Definition as_tensor (op : string) (v : pyval Tensor) : Py nat Tensor :=
  match v with
  | PyTensor t => ret t
  | PyNone => raise (NoneTypeError op)
  end.

(** Reading a local variable that may not have been assigned. *)
Definition load (var : string) (v : option Tensor) : Py nat Tensor :=
  match v with
  | Some t => ret t
  | None => raise (UnboundLocalError var)
  end.

(** [EideticLSTMCell._norm] *)
Definition _norm (self : EideticLSTMCell) (inp : pyval Tensor) (scope : string)
  : Py nat Tensor :=
  (let! inp := as_tensor "layer_norm" inp in
   let! p := fresh in
   ret (layer_norm p inp))%py.

(** The shape checks of [EideticLSTMCell._attn] (lines 105-136): the batch,
    width, height and channel numbers read from the query. *)
Definition _attn_checks (q_shape k_shape v_shape : list Z)
  : result (Z * Z * Z * Z) :=
  match
    match q_shape with
    | [b; w; h; n] => Ok (b, w, h, n)
    | [b; _; w; h; n] => Ok (b, w, h, n)
    | _ => Raise (ValueError "Invalid input_shape {} for the query" [q_shape])
    end
  with
  | Raise e => Raise e
  | Ok (batch, width, height, num_channels) =>
    match k_shape with
    | [_; _; k2; k3; k4] =>
      match v_shape with
      | [_; _; v2; v3; v4] =>
        if negb (width =? k2) || negb (height =? k3)
           || negb (num_channels =? k4) then
          Raise (ValueError "Invalid input_shape {} and {}, not compatible."
                            [q_shape; k_shape])
        else if negb (width =? v2) || negb (height =? v3)
                || negb (num_channels =? v4) then
          Raise (ValueError "Invalid input_shape {} and {}, not compatible."
                            [q_shape; v_shape])
        else if negb (k2 =? v2) || negb (k3 =? v3) || negb (k4 =? v4) then
          Raise (ValueError "Invalid input_shape {} and {}, not compatible."
                            [k_shape; v_shape])
        else Ok (batch, width, height, num_channels)
      | _ => Raise (ValueError "Invalid input_shape {} for the values"
                               [v_shape])
      end
    | _ => Raise (ValueError "Invalid input_shape {} for the keys" [k_shape])
    end
  end.

(** [EideticLSTMCell._attn] *)
Definition _attn (self : EideticLSTMCell) (in_query in_keys in_values : Tensor)
  : result Tensor :=
  let q_shape := shape in_query in
  match _attn_checks q_shape (shape in_keys) (shape in_values) with
  | Raise e => Raise e
  | Ok (batch, width, height, num_channels) =>
    let query := reshape in_query [batch; -1; num_channels] in
    let keys := reshape in_keys [batch; -1; num_channels] in
    let values := reshape in_values [batch; -1; num_channels] in
    let attn := matmul query keys false true in
    let attn := softmax attn 2 in
    let attn := matmul attn values false false in
    if (length q_shape =? 4)%nat then
      Ok (reshape attn [batch; width; height; num_channels])
    else
      Ok (reshape attn [batch; -1; width; height; num_channels])
  end.

(** [EideticLSTMCell._conv]: no [return] is reached when [conv_ndims] is
    neither 2 nor 3, and the call evaluates to [None]. *)
Definition _conv (self : EideticLSTMCell) (inputs : pyval Tensor)
    (output_channels : Z) (kernel_shape : int_or_tuple)
  : Py nat (pyval Tensor) :=
  (if _conv_ndims self =? 2 then
     let! inputs := as_tensor "conv2d" inputs in
     let! p := fresh in
     ret (PyTensor (conv2d p inputs output_channels kernel_shape "same"))
   else if _conv_ndims self =? 3 then
     let! inputs := as_tensor "conv3d" inputs in
     let! p := fresh in
     ret (PyTensor (conv3d p inputs output_channels kernel_shape "same" "NDHWC"))
   else ret PyNone)%py.

(** The seven names bound by unpacking [split(new_inputs, 7, -1)] and the
    four bound by unpacking [split(new_global_memory, 4, -1)]. *)
Record InputGates : Type := {
  i_x : Tensor; g_x : Tensor; r_x : Tensor; o_x : Tensor;
  temp_i_x : Tensor; temp_g_x : Tensor; temp_f_x : Tensor
}.

Record MemoryGates : Type := {
  i_m : Tensor; f_m : Tensor; g_m : Tensor; m_m : Tensor
}.

(** [a, b, c, d = fluid.layers.split(x, 4, -1)] *)
Definition split4 (x : pyval Tensor)
  : Py nat (Tensor * Tensor * Tensor * Tensor) :=
  (let! x := as_tensor "split" x in
   ret (split_section x 4 (-1) 0, split_section x 4 (-1) 1,
        split_section x 4 (-1) 2, split_section x 4 (-1) 3))%py.

(** [a, b, c, d, e, f, g = fluid.layers.split(x, 7, -1)] *)
Definition split7 (x : pyval Tensor) : Py nat InputGates :=
  (let! x := as_tensor "split" x in
   ret {| i_x := split_section x 7 (-1) 0;
          g_x := split_section x 7 (-1) 1;
          r_x := split_section x 7 (-1) 2;
          o_x := split_section x 7 (-1) 3;
          temp_i_x := split_section x 7 (-1) 4;
          temp_g_x := split_section x 7 (-1) 5;
          temp_f_x := split_section x 7 (-1) 6 |})%py.

(** [EideticLSTMCell.__call__].  The scope guard only chooses where the
    executor stores values and does not appear.  A name assigned in one
    branch of an [if] only is an [option]: reading it with [load] raises
    [UnboundLocalError] when the branch was not taken.  The operators of
    the framework are total functions: an error the framework raises
    itself on operands it does not accept (shapes that cannot be added,
    say) is not modelled.  So [Raise] is an exception of a statement of
    this file, and [Ok] is what the call returns when the framework
    accepts every operator of it. *)
Definition EideticLSTMCell_call (self : EideticLSTMCell)
    (inputs hidden cell global_memory eidetic_cell : Tensor)
  : Py nat (Tensor * Tensor * Tensor) :=
  (let oc := _output_channels self in
   let ks := _kernel_shape self in
   let! new_hidden := _conv self (PyTensor hidden) (4 * oc) ks in
   let! new_hidden :=
     (if _layer_norm self then
        let! t := _norm self new_hidden "hidden" in ret (PyTensor t)
      else ret new_hidden) in
   let! (i_h, g_h, r_h, o_h) := split4 new_hidden in

   let! new_inputs := _conv self (PyTensor inputs) (7 * oc) ks in
   let! from_inputs :=
     (if _layer_norm self then
        let! t := _norm self new_inputs "inputs" in
        let! gates := split7 (PyTensor t) in ret (Some gates)
      else ret None) in

   let! i_x' := load "i_x" (i_x <$> from_inputs) in
   let i_t := sigmoid (add i_x' i_h) in
   let! r_x' := load "r_x" (r_x <$> from_inputs) in
   let r_t := sigmoid (add r_x' r_h) in
   let! g_x' := load "g_x" (g_x <$> from_inputs) in
   let g_t := tanh (add g_x' g_h) in

   let! a := lift (_attn self r_t eidetic_cell eidetic_cell) in
   let new_cell := add cell a in
   let! n := _norm self (PyTensor new_cell) "self_attn" in
   let new_cell := add n (mul i_t g_t) in

   let! new_global_memory := _conv self (PyTensor global_memory) (4 * oc) ks in
   let! from_memory :=
     (if _layer_norm self then
        let! t := _norm self new_global_memory "global_memory" in
        let! (i_m', f_m', g_m', m_m') := split4 (PyTensor t) in
        ret (Some {| i_m := i_m'; f_m := f_m'; g_m := g_m'; m_m := m_m' |})
      else ret None) in

   let! temp_i_x' := load "temp_i_x" (temp_i_x <$> from_inputs) in
   let! i_m' := load "i_m" (i_m <$> from_memory) in
   let temp_i_t := sigmoid (add temp_i_x' i_m') in
   let! temp_f_x' := load "temp_f_x" (temp_f_x <$> from_inputs) in
   let! f_m' := load "f_m" (f_m <$> from_memory) in
   let temp_f_t :=
     sigmoid (add_float (add temp_f_x' f_m') (_forget_bias self)) in
   let! temp_g_x' := load "temp_g_x" (temp_g_x <$> from_inputs) in
   let! g_m' := load "g_m" (g_m <$> from_memory) in
   let temp_g_t := tanh (add temp_g_x' g_m') in
   let! m_m' := load "m_m" (m_m <$> from_memory) in
   let new_global_memory := add (mul temp_f_t (tanh m_m')) (mul temp_i_t temp_g_t) in

   let! o_c := _conv self (PyTensor new_cell) oc ks in
   let! o_m := _conv self (PyTensor new_global_memory) oc ks in

   let! o_x' := load "o_x" (o_x <$> from_inputs) in
   let! o_c := as_tensor "add" o_c in
   let! o_m := as_tensor "add" o_m in
   let output_gate := tanh (add (add (add o_x' o_h) o_c) o_m) in

   let memory := concat [new_cell; new_global_memory] (-1) in
   let! memory := _conv self (PyTensor memory) oc (PInt 1) in
   let! memory := as_tensor "tanh" memory in

   let output := mul (tanh memory) (sigmoid output_gate) in
   ret (output, new_cell, new_global_memory))%py.

(** *** The recurrence as the specification words it

    The gates of the cell state, written out from the text of the
    specification for a cell with layer normalisation whose convolutions are
    two- or three-dimensional; [n] is the number of the first parameter the
    call creates.  They are compared with [EideticLSTMCell_call] below. *)

(** A same-padded convolution of the dimensionality of the cell. *)
Definition spec_conv (self : EideticLSTMCell) (p : nat) (x : Tensor) (oc : Z)
    (ks : int_or_tuple) : Tensor :=
  if _conv_ndims self =? 2 then conv2d p x oc ks "same"
  else conv3d p x oc ks "same" "NDHWC".

(** The pre-activations that come from the hidden state and from the input:
    a convolution followed by layer normalisation. *)
Definition spec_pre_h (self : EideticLSTMCell) (hidden : Tensor) (n : nat) : Tensor :=
  layer_norm (1 + n)
    (spec_conv self n hidden (4 * _output_channels self) (_kernel_shape self)).

Definition spec_pre_x (self : EideticLSTMCell) (inputs : Tensor) (n : nat) : Tensor :=
  layer_norm (3 + n)
    (spec_conv self (2 + n) inputs (7 * _output_channels self) (_kernel_shape self)).

(** [i_t = sigmoid(i_x + i_h)], [g_t = tanh(g_x + g_h)] and
    [r_t = sigmoid(r_x + r_h)]. *)
Definition spec_i_t (self : EideticLSTMCell) (inputs hidden : Tensor) (n : nat) : Tensor :=
  sigmoid (add (split_section (spec_pre_x self inputs n) 7 (-1) 0)
               (split_section (spec_pre_h self hidden n) 4 (-1) 0)).

Definition spec_g_t (self : EideticLSTMCell) (inputs hidden : Tensor) (n : nat) : Tensor :=
  tanh (add (split_section (spec_pre_x self inputs n) 7 (-1) 1)
            (split_section (spec_pre_h self hidden n) 4 (-1) 1)).

Definition spec_r_t (self : EideticLSTMCell) (inputs hidden : Tensor) (n : nat) : Tensor :=
  sigmoid (add (split_section (spec_pre_x self inputs n) 7 (-1) 2)
               (split_section (spec_pre_h self hidden n) 4 (-1) 2)).

(** The new cell state: the layer normalisation of the cell state plus the
    attention [a], plus [i_t * g_t]. *)
Definition spec_new_cell (self : EideticLSTMCell) (inputs hidden cell a : Tensor)
    (n : nat) : Tensor :=
  add (layer_norm (4 + n) (add cell a))
      (mul (spec_i_t self inputs hidden n) (spec_g_t self inputs hidden n)).

(** The attention as the specification words it: each operand flattened to
    (batch, positions, channels), the softmax of query times transposed keys
    along the axis of the keys, times the values, reshaped to [target]. *)
Definition spec_attention (batch num_channels : Z) (target : list Z)
    (q k v : Tensor) : Tensor :=
  let flat t := reshape t [batch; -1; num_channels] in
  reshape (matmul (softmax (matmul (flat q) (flat k) false true) 2)
                  (flat v) false false)
          target.

(** The shape the attention is given back in: that of the query, of four
    dimensions, or of five with the second one inferred. *)
Definition attn_target (q_shape : list Z) (b w h c : Z) : list Z :=
  if (length q_shape =? 4)%nat then [b; w; h; c] else [b; -1; w; h; c].

(** *** The global memory and the output, written out

    Lines 186 to 208 of [__call__] for a cell with layer normalisation
    whose convolutions are two- or three-dimensional, as formulas over the
    operands; [n] is the number of the first parameter the call creates. *)

(** The pre-activations that come from the global memory. *)
Definition spec_pre_m (self : EideticLSTMCell) (global_memory : Tensor) (n : nat)
  : Tensor :=
  layer_norm (6 + n)
    (spec_conv self (5 + n) global_memory (4 * _output_channels self)
       (_kernel_shape self)).

(** The new global memory:
    [sigmoid(temp_f_x + f_m + forget_bias) * tanh(m_m)
     + sigmoid(temp_i_x + i_m) * tanh(temp_g_x + g_m)]. *)
Definition spec_new_global_memory (self : EideticLSTMCell)
    (inputs global_memory : Tensor) (n : nat) : Tensor :=
  let x := spec_pre_x self inputs n in
  let m := spec_pre_m self global_memory n in
  let temp_i_t := sigmoid (add (split_section x 7 (-1) 4) (split_section m 4 (-1) 0)) in
  let temp_f_t :=
    sigmoid (add_float (add (split_section x 7 (-1) 6) (split_section m 4 (-1) 1))
                       (_forget_bias self)) in
  let temp_g_t := tanh (add (split_section x 7 (-1) 5) (split_section m 4 (-1) 2)) in
  add (mul temp_f_t (tanh (split_section m 4 (-1) 3))) (mul temp_i_t temp_g_t).

(** The output for the new memories [new_cell] and [new_global_memory]: the
    sum [o_x + o_h + o_c + o_m] passes through [tanh] and then [sigmoid],
    and multiplies the [tanh] of the pointwise convolution of the two
    memories joined along the last axis. *)
Definition spec_output (self : EideticLSTMCell)
    (inputs hidden new_cell new_global_memory : Tensor) (n : nat) : Tensor :=
  let oc := _output_channels self in
  let o_x := split_section (spec_pre_x self inputs n) 7 (-1) 3 in
  let o_h := split_section (spec_pre_h self hidden n) 4 (-1) 3 in
  let o_c := spec_conv self (7 + n) new_cell oc (_kernel_shape self) in
  let o_m := spec_conv self (8 + n) new_global_memory oc (_kernel_shape self) in
  let output_gate := tanh (add (add (add o_x o_h) o_c) o_m) in
  let memory :=
    spec_conv self (9 + n) (concat [new_cell; new_global_memory] (-1)) oc (PInt 1) in
  mul (tanh memory) (sigmoid output_gate).

(** *** The attributes of a cell object

    The instance dictionary after [__init__]: the nine names it assigns,
    with their values.  The class defines no attribute of these kinds, so
    reading a name that is not in the dictionary fails with
    [AttributeError], here [None]. *)
Inductive pyattr : Type :=
| AInt (z : Z)
| AShape (l : list Z)
| AKernel (k : int_or_tuple)
| ABool (b : bool)
| AFloat (f : pyfloat)
| AStr (s : string).

Definition instance_dict (self : EideticLSTMCell) : list (string * pyattr) :=
  [("_conv_ndims", AInt (_conv_ndims self));
   ("_input_shape", AShape (_input_shape self));
   ("_output_channels", AInt (_output_channels self));
   ("_kernel_shape", AKernel (_kernel_shape self));
   ("_layer_norm", ABool (_layer_norm self));
   ("_norm_gain", AFloat (_norm_gain self));
   ("_norm_shift", AFloat (_norm_shift self));
   ("_forget_bias", AFloat (_forget_bias self));
   ("_layer_name", AStr (_layer_name self))].

Fixpoint assoc (name : string) (d : list (string * pyattr)) : option pyattr :=
  match d with
  | [] => None
  | (k, v) :: d => if String.eqb k name then Some v else assoc name d
  end.

(** [self.name] *)
Definition getattr (self : EideticLSTMCell) (name : string) : option pyattr :=
  assoc name (instance_dict self).

(** The properties [EideticLSTMCell.output_size] and
    [EideticLSTMCell.state_size]. *)
Definition output_size (self : EideticLSTMCell) : option pyattr :=
  getattr self "_output_size".

Definition state_size (self : EideticLSTMCell) : option pyattr :=
  getattr self "_state_size".

End Cell.

(** What the framework guarantees about the shapes of the gates of a
    three-dimensional cell, in the layout NDHWC: a convolution with
    [padding="same"] keeps the batch and the three spatial dimensions and
    sets the channels; a split along the last axis divides it. *)
Class FluidGateLaws (F : FluidLayers) : Prop := {
  shape_conv3d : forall p x oc k b d h w c,
    shape x = [b; d; h; w; c] ->
    shape (conv3d p x oc k "same" "NDHWC") = [b; d; h; w; oc];
  shape_layer_norm : forall p x, shape (layer_norm p x) = shape x;
  shape_split_section : forall x num i l q,
    (0 < num)%nat -> shape x = l ++ [Z.of_nat num * q] ->
    shape (split_section x num (-1) i) = l ++ [q];
  shape_add : forall x y, shape x = shape y -> shape (add x y) = shape x;
  shape_sigmoid : forall x, shape (sigmoid x) = shape x
}.
End E3D.

(** ** src/ECO/paddle2.0/model/ECO.py *)

Module ECO.

(** The framework layers that own parameters, by their configuration and
    the number of their parameters. *)
Record Conv2D : Type := {
  in_channels : Z;
  out_channels : Z;
  kernel_size : Z;
  stride : Z;
  padding : Z;
  groups : Z;
  bias_attr : bool;
  conv_id : nat
}.

Record BatchNorm2D : Type := {
  num_features : Z;
  bn_id : nat
}.

Record Linear : Type := {
  in_features : Z;
  out_features : Z;
  weight_initializer : string;
  linear_id : nat
}.

(** The part of [paddle] the model uses, and [model.Res3D.ResNet3D], a
    module of the repository that is not among the sources and is taken as
    a parameter.  An operator is a total function of its arguments: the
    random mask of [dropout] and the running statistics of batch
    normalisation, which the framework keeps, are not modelled. *)
Class PaddleNN : Type := {
  Tensor : Type;
  shape : Tensor -> list Z;
  Conv2D_call : Conv2D -> Tensor -> Tensor;
  BatchNorm2D_call : BatchNorm2D -> Tensor -> Tensor;
  Linear_call : Linear -> Tensor -> Tensor;
  AvgPool2D_call : Z -> Z -> Z -> Tensor -> Tensor;
  MaxPool2D_call : Z -> Z -> Z -> Tensor -> Tensor;
  AdaptiveAvgPool2D_call : Z -> Tensor -> Tensor;
  relu : Tensor -> Tensor;
  concat : list Tensor -> Z -> Tensor;
  reshape : Tensor -> list Z -> Tensor;
  mean : Tensor -> Z -> Tensor;
  dropout : Tensor -> pyfloat -> Tensor;
  softmax : Tensor -> Tensor;
  accuracy : Tensor -> Tensor -> Tensor;
  ResNet3D : Type;
  ResNet3D_init : string -> string -> Z -> Py nat ResNet3D;
  ResNet3D_call : ResNet3D -> Tensor -> Tensor
}.

(** The number of dimensions of a tensor. *)
Abbreviation rank t := (length (shape t)).

(** What the framework guarantees about the number of dimensions of its
    results; for [ResNet3D], that its result has the dimension
    [GoogLeNet.forward] reads. *)
Class PaddleRankLaws (P : PaddleNN) : Prop := {
  rank_reshape : forall x s, length (shape (reshape x s)) = length s;
  rank_dropout : forall x p, length (shape (dropout x p)) = length (shape x);
  rank_concat : forall x l axis,
    length (shape (concat (x :: l) axis)) = length (shape x);
  rank_relu : forall x, length (shape (relu x)) = length (shape x);
  rank_Conv2D : forall c x, length (shape (Conv2D_call c x)) = length (shape x);
  rank_BatchNorm2D : forall b x,
    length (shape (BatchNorm2D_call b x)) = length (shape x);
  rank_AvgPool2D : forall k s p x,
    length (shape (AvgPool2D_call k s p x)) = length (shape x);
  rank_MaxPool2D : forall k s p x,
    length (shape (MaxPool2D_call k s p x)) = length (shape x);
  rank_AdaptiveAvgPool2D : forall o x,
    length (shape (AdaptiveAvgPool2D_call o x)) = length (shape x);
  rank_ResNet3D : forall r x, (2 <= length (shape (ResNet3D_call r x)))%nat
}.

Section Model.
Context {P : PaddleNN}.

(** The layer objects of the file that are called with one tensor and
    return one tensor.  A [Sequential] keeps its layers in order; the names
    given to some of them only name parameters and are left out. *)
Inductive Layer : Type :=
| ConvBNLayer (_conv : Conv2D) (_batch_norm : BatchNorm2D)
| AvgPool2D (kernel_size stride padding : Z)
| MaxPool2D (kernel_size stride padding : Z)
| AdaptiveAvgPool2D (output_size : Z)
| Sequential (layers : list Layer)
| Inception (branch1 branch2 branch3 branch4 : Layer)
| Inception4e (branch1 branch2 branch3 : Layer)
| Inception5a (branch1 branch2 branch3 branch4 : Layer)
| Inception5b (branch1 branch2 branch3 branch4 : Layer).

(** [Inception3c] returns two tensors and is never put in a [Sequential]. *)
Record Inception3c : Type := {
  branch1 : Layer;
  branch2 : Layer;
  branch3 : Layer;
  branch4 : Layer
}.

(** Induction over layers, through the lists of [Sequential]. *)
Section LayerInd.
Variable Q : Layer -> Prop.
Hypothesis HConvBN : forall c b, Q (ConvBNLayer c b).
Hypothesis HAvg : forall k s p, Q (AvgPool2D k s p).
Hypothesis HMax : forall k s p, Q (MaxPool2D k s p).
Hypothesis HAda : forall o, Q (AdaptiveAvgPool2D o).
Hypothesis HSeq : forall ls, Forall Q ls -> Q (Sequential ls).
Hypothesis HInc : forall b1 b2 b3 b4, Q b1 -> Q b2 -> Q b3 -> Q b4 -> Q (Inception b1 b2 b3 b4).
Hypothesis H4e : forall b1 b2 b3, Q b1 -> Q b2 -> Q b3 -> Q (Inception4e b1 b2 b3).
Hypothesis H5a : forall b1 b2 b3 b4, Q b1 -> Q b2 -> Q b3 -> Q b4 -> Q (Inception5a b1 b2 b3 b4).
Hypothesis H5b : forall b1 b2 b3 b4, Q b1 -> Q b2 -> Q b3 -> Q b4 -> Q (Inception5b b1 b2 b3 b4).

Fixpoint Layer_nested_ind (l : Layer) : Q l :=
  match l with
  | ConvBNLayer c b => HConvBN c b
  | AvgPool2D k s p => HAvg k s p
  | MaxPool2D k s p => HMax k s p
  | AdaptiveAvgPool2D o => HAda o
  | Sequential ls =>
    HSeq ls ((fix all (ls : list Layer) : Forall Q ls :=
                match ls with
                | [] => @List.Forall_nil _ Q
                | l :: ls => @List.Forall_cons _ Q l ls (Layer_nested_ind l) (all ls)
                end) ls)
  | Inception b1 b2 b3 b4 =>
    HInc b1 b2 b3 b4 (Layer_nested_ind b1) (Layer_nested_ind b2)
         (Layer_nested_ind b3) (Layer_nested_ind b4)
  | Inception4e b1 b2 b3 =>
    H4e b1 b2 b3 (Layer_nested_ind b1) (Layer_nested_ind b2) (Layer_nested_ind b3)
  | Inception5a b1 b2 b3 b4 =>
    H5a b1 b2 b3 b4 (Layer_nested_ind b1) (Layer_nested_ind b2)
        (Layer_nested_ind b3) (Layer_nested_ind b4)
  | Inception5b b1 b2 b3 b4 =>
    H5b b1 b2 b3 b4 (Layer_nested_ind b1) (Layer_nested_ind b2)
        (Layer_nested_ind b3) (Layer_nested_ind b4)
  end.
End LayerInd.

(** [ConvBNLayer.forward] *)
Definition ConvBNLayer_forward (_conv : Conv2D) (_batch_norm : BatchNorm2D)
    (inputs : Tensor) : Tensor :=
  let y := Conv2D_call _conv inputs in
  let y := relu y in
  let y := BatchNorm2D_call _batch_norm y in
  let y := relu y in
  y.

Section Forward.
(** Calling a sublayer. *)
Variable call : Layer -> Tensor -> Tensor.

(** [paddle.nn.Sequential.forward] *)
Definition Sequential_forward (layers : list Layer) (inputs : Tensor) : Tensor :=
  fold_left (fun x l => call l x) layers inputs.

(** [Inception.forward] *)
Definition Inception_forward (b1 b2 b3 b4 : Layer) (inputs : Tensor) : Tensor :=
  let branch1 := call b1 inputs in
  let branch2 := call b2 inputs in
  let branch3 := call b3 inputs in
  let branch4 := call b4 inputs in
  let outputs := concat [branch1; branch2; branch3; branch4] 1 in
  outputs.

(** [Inception3c.forward] *)
Definition Inception3c_forward (self : Inception3c) (inputs : Tensor)
  : Tensor * Tensor :=
  let branch1 := call (branch1 self) inputs in
  let branch2 := call (branch2 self) inputs in
  let branch3 := call (branch3 self) branch2 in
  let branch4 := call (branch4 self) inputs in
  let outputs := concat [branch1; branch3; branch4] 1 in
  (outputs, branch2).

(** [Inception4e.forward] *)
Definition Inception4e_forward (b1 b2 b3 : Layer) (inputs : Tensor) : Tensor :=
  let branch1 := call b1 inputs in
  let branch2 := call b2 inputs in
  let branch3 := call b3 inputs in
  let outputs := concat [branch1; branch2; branch3] 1 in
  outputs.

(** [Inception5a.forward] *)
Definition Inception5a_forward (b1 b2 b3 b4 : Layer) (inputs : Tensor) : Tensor :=
  let branch1 := call b1 inputs in
  let branch2 := call b2 inputs in
  let branch3 := call b3 inputs in
  let branch4 := call b4 inputs in
  let outputs := concat [branch1; branch2; branch3; branch4] 1 in
  outputs.

(** [Inception5b.forward] *)
Definition Inception5b_forward (b1 b2 b3 b4 : Layer) (inputs : Tensor) : Tensor :=
  let branch1 := call b1 inputs in
  let branch2 := call b2 inputs in
  let branch3 := call b3 inputs in
  let branch4 := call b4 inputs in
  let outputs := concat [branch1; branch2; branch3; branch4] 1 in
  outputs.
End Forward.

(** [layer(x)]: the call of a layer object dispatches on its class. *)
Fixpoint Layer_call (l : Layer) (x : Tensor) {struct l} : Tensor :=
  match l with
  | ConvBNLayer c b => ConvBNLayer_forward c b x
  | AvgPool2D k s p => AvgPool2D_call k s p x
  | MaxPool2D k s p => MaxPool2D_call k s p x
  | AdaptiveAvgPool2D o => AdaptiveAvgPool2D_call o x
  | Sequential ls => Sequential_forward Layer_call ls x
  | Inception b1 b2 b3 b4 => Inception_forward Layer_call b1 b2 b3 b4 x
  | Inception4e b1 b2 b3 => Inception4e_forward Layer_call b1 b2 b3 x
  | Inception5a b1 b2 b3 b4 => Inception5a_forward Layer_call b1 b2 b3 b4 x
  | Inception5b b1 b2 b3 b4 => Inception5b_forward Layer_call b1 b2 b3 b4 x
  end.

(** [ConvBNLayer.__init__] *)
Definition ConvBNLayer_init (num_channels num_filters filter_size stride
    groups padding : Z) : Py nat Layer :=
  (let! c := fresh in
   let _conv := {| in_channels := num_channels;
                   out_channels := num_filters;
                   kernel_size := filter_size;
                   stride := stride;
                   padding := padding;
                   groups := groups;
                   bias_attr := false;
                   conv_id := c |} in
   let! b := fresh in
   let _batch_norm := {| num_features := num_filters; bn_id := b |} in
   ret (ConvBNLayer _conv _batch_norm))%py.

(** [Inception.__init__] *)
Definition Inception_init (num_channels ch1x1 ch3x3reduced ch3x3
    doublech3x3reduced doublech3x3_1 doublech3x3_2 pool_proj : Z)
  : Py nat Layer :=
  (let! branch1 := ConvBNLayer_init num_channels ch1x1 1 1 1 0 in
   let! b2a := ConvBNLayer_init num_channels ch3x3reduced 1 1 1 0 in
   let! b2b := ConvBNLayer_init ch3x3reduced ch3x3 3 1 1 1 in
   let branch2 := Sequential [b2a; b2b] in
   let! b3a := ConvBNLayer_init num_channels doublech3x3reduced 1 1 1 0 in
   let! b3b := ConvBNLayer_init doublech3x3reduced doublech3x3_1 3 1 1 1 in
   let! b3c := ConvBNLayer_init doublech3x3_1 doublech3x3_2 3 1 1 1 in
   let branch3 := Sequential [b3a; b3b; b3c] in
   let! b4b := ConvBNLayer_init num_channels pool_proj 1 1 1 0 in
   let branch4 := Sequential [AvgPool2D 3 1 1; b4b] in
   ret (Inception branch1 branch2 branch3 branch4))%py.

(** [Inception3c.__init__] *)
Definition Inception3c_init (num_channels ch3x3reduced ch3x3
    doublech3x3reduced doublech3x3_1 doublech3x3_2 : Z) : Py nat Inception3c :=
  (let! b1a := ConvBNLayer_init num_channels ch3x3reduced 1 1 1 0 in
   let! b1b := ConvBNLayer_init ch3x3reduced ch3x3 3 2 1 1 in
   let branch1 := Sequential [b1a; b1b] in
   let! b2a := ConvBNLayer_init num_channels doublech3x3reduced 1 1 1 0 in
   let! b2b := ConvBNLayer_init doublech3x3reduced doublech3x3_1 3 1 1 1 in
   let branch2 := Sequential [b2a; b2b] in
   let! b3a := ConvBNLayer_init doublech3x3_1 doublech3x3_2 3 2 1 1 in
   let branch3 := Sequential [b3a] in
   let branch4 := MaxPool2D 3 2 1 in
   ret {| branch1 := branch1; branch2 := branch2;
          branch3 := branch3; branch4 := branch4 |})%py.

(** [Inception4e.__init__] *)
Definition Inception4e_init (num_channels ch3x3reduced ch3x3
    doublech3x3reduced doublech3x3_1 doublech3x3_2 pool_proj : Z)
  : Py nat Layer :=
  (let! b1a := ConvBNLayer_init num_channels ch3x3reduced 1 1 1 0 in
   let! b1b := ConvBNLayer_init ch3x3reduced ch3x3 3 2 1 1 in
   let branch1 := Sequential [b1a; b1b] in
   let! b2a := ConvBNLayer_init num_channels doublech3x3reduced 1 1 1 0 in
   let! b2b := ConvBNLayer_init doublech3x3reduced doublech3x3_1 3 1 1 1 in
   let! b2c := ConvBNLayer_init doublech3x3_1 doublech3x3_2 3 2 1 1 in
   let branch2 := Sequential [b2a; b2b; b2c] in
   let branch3 := MaxPool2D 3 2 1 in
   ret (Inception4e branch1 branch2 branch3))%py.

(** [Inception5a.__init__] *)
Definition Inception5a_init (num_channels ch1x1 ch3x3reduced ch3x3
    doublech3x3reduced doublech3x3_1 doublech3x3_2 pool_proj : Z)
  : Py nat Layer :=
  (let! branch1 := ConvBNLayer_init num_channels ch1x1 1 1 1 0 in
   let! b2a := ConvBNLayer_init num_channels ch3x3reduced 1 1 1 0 in
   let! b2b := ConvBNLayer_init ch3x3reduced ch3x3 3 1 1 1 in
   let branch2 := Sequential [b2a; b2b] in
   let! b3a := ConvBNLayer_init num_channels doublech3x3reduced 1 1 1 0 in
   let! b3b := ConvBNLayer_init doublech3x3reduced doublech3x3_1 3 1 1 1 in
   let! b3c := ConvBNLayer_init doublech3x3_1 doublech3x3_2 3 1 1 1 in
   let branch3 := Sequential [b3a; b3b; b3c] in
   let! b4b := ConvBNLayer_init num_channels pool_proj 1 1 1 0 in
   let branch4 := Sequential [AvgPool2D 3 1 1; b4b] in
   ret (Inception5a branch1 branch2 branch3 branch4))%py.

(** [Inception5b.__init__] *)
Definition Inception5b_init (num_channels ch1x1 ch3x3reduced ch3x3
    doublech3x3reduced doublech3x3_1 doublech3x3_2 pool_proj : Z)
  : Py nat Layer :=
  (let! branch1 := ConvBNLayer_init num_channels ch1x1 1 1 1 0 in
   let! b2a := ConvBNLayer_init num_channels ch3x3reduced 1 1 1 0 in
   let! b2b := ConvBNLayer_init ch3x3reduced ch3x3 3 1 1 1 in
   let branch2 := Sequential [b2a; b2b] in
   let! b3a := ConvBNLayer_init num_channels doublech3x3reduced 1 1 1 0 in
   let! b3b := ConvBNLayer_init doublech3x3reduced doublech3x3_1 3 1 1 1 in
   let! b3c := ConvBNLayer_init doublech3x3_1 doublech3x3_2 3 1 1 1 in
   let branch3 := Sequential [b3a; b3b; b3c] in
   let! b4b := ConvBNLayer_init num_channels pool_proj 1 1 1 0 in
   let branch4 := Sequential [MaxPool2D 3 1 1; b4b] in
   ret (Inception5b branch1 branch2 branch3 branch4))%py.

(** A tensor object: its value and its [stop_gradient] attribute. *)
Record TensorObj : Type := {
  value : Tensor;
  stop_gradient : bool
}.

(** The attributes of a [GoogLeNet] object.  [out_3d] is a Python list of
    tensor objects, held by reference: each entry is a position of
    [objects] below. *)
Record GoogLeNet : Type := {
  seg_num : Z;
  seglen : Z;
  modality : string;
  channels : Z;
  part1_list : Layer;
  part2_list : Layer;
  googLeNet_part1 : Layer;
  before3d : Inception3c;
  googLeNet_part2 : Layer;
  googLeNet_part3 : Layer;
  res3d : ResNet3D;
  out : Linear;
  out_3d : list nat
}.

(** [GoogLeNet.__init__] *)
Definition GoogLeNet_init (class_dim seg_num seglen : Z) (modality : string)
    (weight_devay : option pyfloat) : Py nat GoogLeNet :=
  (let channels := if String.eqb modality "RGB" then 3 * seglen else 2 * seglen in
   let! p1 := ConvBNLayer_init channels 64 7 2 1 3 in
   let part1_list := Sequential [p1; MaxPool2D 3 2 1] in
   let! p2a := ConvBNLayer_init 64 64 1 1 1 0 in
   let! p2b := ConvBNLayer_init 64 192 3 1 1 1 in
   let part2_list := Sequential [p2a; p2b; MaxPool2D 3 2 1] in
   let! inception_3a := Inception_init 192 64 64 64 64 96 96 32 in
   let! inception_3b := Inception_init 256 64 64 96 64 96 96 64 in
   let googLeNet_part1 :=
     Sequential [part1_list; part2_list; inception_3a; inception_3b] in
   let! before3d := Inception3c_init 320 128 160 64 96 96 in
   let! inception_4a := Inception_init 576 224 64 96 96 128 128 128 in
   let! inception_4b := Inception_init 576 192 96 128 96 128 128 128 in
   let! inception_4c := Inception_init 576 160 128 160 128 160 160 128 in
   let! inception_4d := Inception_init 608 96 128 192 160 192 192 128 in
   let googLeNet_part2 :=
     Sequential [inception_4a; inception_4b; inception_4c; inception_4d] in
   let! inception_4e := Inception4e_init 608 128 192 192 256 256 608 in
   let! inception_5a := Inception5a_init 1056 352 192 320 160 224 224 128 in
   let! inception_5b := Inception5b_init 1024 352 192 320 192 224 224 128 in
   let googLeNet_part3 :=
     Sequential [inception_4e; inception_5a; inception_5b; AdaptiveAvgPool2D 1] in
   let! res3d := ResNet3D_init "resnet" "RGB" 96 in
   let! o := fresh in
   let out := {| in_features := 1536;
                 out_features := class_dim;
                 weight_initializer := "XavierNormal";
                 linear_id := o |} in
   ret {| seg_num := seg_num; seglen := seglen; modality := modality;
          channels := channels;
          part1_list := part1_list; part2_list := part2_list;
          googLeNet_part1 := googLeNet_part1; before3d := before3d;
          googLeNet_part2 := googLeNet_part2;
          googLeNet_part3 := googLeNet_part3;
          res3d := res3d; out := out;
          out_3d := [] |})%py.

(** The state [forward] works on: the network object and the tensor objects
    its list [out_3d] refers to. *)
Record World : Type := {
  self : GoogLeNet;
  objects : list TensorObj
}.

Definition set_out_3d (l : list nat) (w : World) : World :=
  {| self := let g := self w in
       {| seg_num := seg_num g; seglen := seglen g; modality := modality g;
          channels := channels g;
          part1_list := part1_list g; part2_list := part2_list g;
          googLeNet_part1 := googLeNet_part1 g; before3d := before3d g;
          googLeNet_part2 := googLeNet_part2 g;
          googLeNet_part3 := googLeNet_part3 g;
          res3d := res3d g; out := out g;
          out_3d := l |};
     objects := objects w |}.

(** A new tensor object holding [t]; a tensor computed from parameters has
    [stop_gradient = False]. *)
Definition new_tensor (t : Tensor) : Py World nat :=
  fun w => (Ok (length (objects w)),
            {| self := self w;
               objects := objects w ++ [{| value := t; stop_gradient := false |}] |}).

(** The tensor of the object at [r]. *)
Definition deref (r : nat) : Py World Tensor :=
  fun w => match objects w !! r with
           | Some o => (Ok (value o), w)
           | None => (Raise (IndexError "dangling tensor reference"), w)
           end.

(** [obj.stop_gradient = True] for the object at [r], seen through every
    reference to it. *)
Definition set_stop_gradient (r : nat) : Py World unit :=
  fun w => (Ok tt,
            {| self := self w;
               objects := alter (fun o => {| value := value o;
                                             stop_gradient := true |}) r (objects w) |}).

(** [t.shape[i]] *)
Definition shape_at (t : Tensor) (i : Z) : Py World Z :=
  lift (py_getitem (shape t) i).

(** [while len(self.out_3d) < self.seg_num: self.out_3d.append(before3d)]:
    the loop runs [seg_num - len] times when that is positive, and not at
    all otherwise. *)
Fixpoint append_times (n : nat) (r : nat) (l : list nat) : list nat :=
  match n with
  | O => l
  | S n => append_times n r (l ++ [r])
  end.

Definition fill_out_3d (seg_num : Z) (r : nat) (l : list nat) : list nat :=
  append_times (Z.to_nat (seg_num - Z.of_nat (length l))) r l.

(** Lines 551 to 559 of [GoogLeNet.forward]: the update of [self.out_3d]. *)
Definition update_out_3d (before3d : nat) : Py World unit :=
  (let! w := get in
   let l := out_3d (self w) in
   let n := seg_num (self w) in
   if Z.of_nat (length l) =? n then
     let! _ := put (set_out_3d (py_assign_slice_to l (n - 1) (py_slice_from l 1)) w) in
     let! w := get in
     let! l := lift (py_setitem (out_3d (self w)) (n - 1) before3d) in
     let! _ := put (set_out_3d l w) in
     let! r := lift (py_getitem l (n - 2)) in
     set_stop_gradient r
   else
     put (set_out_3d (fill_out_3d n before3d l) w))%py.

(** Lines 561 to 563: the tensors of [self.out_3d] joined along axis 0. *)
Definition concat_out_3d : Py World Tensor :=
  (let! w := get in
   let l := out_3d (self w) in
   let! r0 := lift (py_getitem l 0) in
   let! y_out_3d := deref r0 in
   fold_left
     (fun acc i =>
        let! y_out_3d := acc in
        let! r := lift (py_getitem l (Z.of_nat i + 1)) in
        let! t := deref r in
        ret (concat [y_out_3d; t] 0))
     (seq 0 (length l - 1)) (ret y_out_3d))%py.

(** [GoogLeNet.forward]; the result is [out_final], with [acc] when a label
    is given.  The operators of the framework are total functions: an
    error the framework raises itself on operands it does not accept (a
    [reshape] to a shape of another size, say) is not modelled.  So [Raise]
    is an exception of a statement of this file, and [Ok] is what the call
    returns when the framework accepts every operator of it. *)
Definition GoogLeNet_forward (inputs : Tensor) (label : option Tensor)
  : Py World (Tensor * option Tensor) :=
  (let! s2 := shape_at inputs 2 in
   let! s3 := shape_at inputs 3 in
   let! s4 := shape_at inputs 4 in
   let inputs := reshape inputs [-1; s2; s3; s4] in
   let! w := get in
   let net := self w in
   let googLeNet_part1 := Layer_call (googLeNet_part1 net) inputs in
   let '(googleNet_b3d, before3d) :=
     Inception3c_forward Layer_call (before3d net) googLeNet_part1 in
   let! before3d := new_tensor before3d in

   let! _ := update_out_3d before3d in

   let! y_out_3d := concat_out_3d in
   let! y1 := shape_at y_out_3d 1 in
   let! y2 := shape_at y_out_3d 2 in
   let! y3 := shape_at y_out_3d 3 in
   let y_out_3d := reshape y_out_3d [-1; seg_num net; y1; y2; y3] in
   let! z0 := shape_at y_out_3d 0 in
   let! z2 := shape_at y_out_3d 2 in
   let! z1 := shape_at y_out_3d 1 in
   let! z3 := shape_at y_out_3d 3 in
   let! z4 := shape_at y_out_3d 4 in
   let y_out_3d := reshape y_out_3d [z0; z2; z1; z3; z4] in

   let out_final_3d := ResNet3D_call (res3d net) y_out_3d in
   let! c := shape_at out_final_3d 1 in
   let out_final_3d := reshape out_final_3d [-1; c] in
   let out_final_3d := dropout out_final_3d "0.5" in
   let! c := shape_at out_final_3d 1 in
   let out_final_3d := reshape out_final_3d [-1; seg_num net; c] in
   let out_final_3d := mean out_final_3d 1 in

   let googLeNet_part2 := Layer_call (googLeNet_part2 net) googleNet_b3d in
   let googLeNet_part3 := Layer_call (googLeNet_part3 net) googLeNet_part2 in
   let googLeNet_part3 := dropout googLeNet_part3 "0.6" in
   let! c := shape_at googLeNet_part3 1 in
   let out_final_2d := reshape googLeNet_part3 [-1; c] in
   let! c := shape_at out_final_2d 1 in
   let out_final_2d := reshape out_final_2d [-1; seg_num net; c] in
   let out_final_2d := mean out_final_2d 1 in

   let out_final := concat [out_final_2d; out_final_3d] 1 in
   let out_final := Linear_call (out net) out_final in
   let out_final := softmax out_final in
   match label with
   | Some label =>
     let acc := accuracy out_final label in
     ret (out_final, Some acc)
   | None => ret (out_final, None)
   end)%py.

(** Successive calls of [forward] on one network, without labels. *)
Fixpoint GoogLeNet_calls (xs : list Tensor) : Py World (list Tensor) :=
  match xs with
  | [] => ret []
  | x :: xs =>
    (let! o := GoogLeNet_forward x None in
     let! os := GoogLeNet_calls xs in
     ret (fst o :: os))%py
  end.

(** *** The fusion and the buffer as the specification words them *)

(** A reference and the tensor of its object. *)
Definition refers (objs : list TensorObj) (r : nat) (t : Tensor) : Prop :=
  (value <$> objs) !! r = Some t.

(** Dimension [i] of a tensor. *)
Definition dim (t : Tensor) (i : nat) : Z := nth i (shape t) 0.

(** The frames of all segments as one batch of images. *)
Definition spec_frames (inputs : Tensor) : Tensor :=
  reshape inputs [-1; dim inputs 2; dim inputs 3; dim inputs 4].

(** The 2D trunk up to [Inception3c]: its output and the features handed to
    the 3D network. *)
Definition spec_stem (net : GoogLeNet) (inputs : Tensor) : Tensor * Tensor :=
  Inception3c_forward Layer_call (before3d net)
    (Layer_call (googLeNet_part1 net) (spec_frames inputs)).

(** The average over the [seg_num] segments of every video. *)
Definition segment_average (seg_num : Z) (t : Tensor) : Tensor :=
  mean (reshape t [-1; seg_num; dim t 1]) 1.

(** The 2D GoogLeNet features of every frame. *)
Definition spec_features_2d (net : GoogLeNet) (inputs : Tensor) : Tensor :=
  let t := dropout (Layer_call (googLeNet_part3 net)
                      (Layer_call (googLeNet_part2 net)
                         (fst (spec_stem net inputs)))) "0.6" in
  reshape t [-1; dim t 1].

(** The buffered features joined along axis 0. *)
Definition spec_join (t : Tensor) (ts : list Tensor) : Tensor :=
  fold_left (fun y t => concat [y; t] 0) ts t.

(** The 3D ResNet features of the joined buffer [y]. *)
Definition spec_features_3d (net : GoogLeNet) (y : Tensor) : Tensor :=
  let y := reshape y [-1; seg_num net; dim y 1; dim y 2; dim y 3] in
  let y := reshape y [dim y 0; dim y 2; dim y 1; dim y 3; dim y 4] in
  let o := ResNet3D_call (res3d net) y in
  dropout (reshape o [-1; dim o 1]) "0.5".

(** The two averaged streams joined along axis 1, the last [Linear] layer
    and the softmax. *)
Definition spec_fuse (net : GoogLeNet) (f2d f3d : Tensor) : Tensor :=
  softmax (Linear_call (out net)
             (concat [segment_average (seg_num net) f2d;
                      segment_average (seg_num net) f3d] 1)).

(** The buffer after a call whose features are the object [r]: a full
    buffer is shifted left by one position and [r] put at its end; a short
    one is filled up with references to [r]. *)
Definition spec_buffer (seg_num : Z) (old : list nat) (r : nat) : list nat :=
  if Z.of_nat (length old) =? seg_num then drop 1 old ++ [r]
  else old ++ replicate (Z.to_nat (seg_num - Z.of_nat (length old))) r.

(** The tensors a list of references stands for. *)
Definition tensors_of (objs : list TensorObj) (l : list nat) : list Tensor :=
  omap (fun r => value <$> objs !! r) l.

(** A [ConvBNLayer] whose convolution has a kernel of size [k]. *)
Definition is_conv (k : Z) (l : Layer) : Prop :=
  exists c b, l = ConvBNLayer c b /\ kernel_size c = k.

(** A buffer [forward] can work on: empty or full, every entry the
    reference of an object whose tensor has four dimensions. *)
Definition buffer_ok (w : World) : Prop :=
  (out_3d (self w) = []
   \/ Z.of_nat (length (out_3d (self w))) = seg_num (self w))
  /\ Forall (fun r => exists t, refers (objects w) r t /\ rank t = 4%nat)
            (out_3d (self w)).

(** *** The state a call leaves *)









(** *** The channels of the layers *)

(** The layers of a [Sequential] in turn, each on the result of the one
    before. *)
Fixpoint Sequential_match (fits : Layer -> Tensor -> bool)
    (call : Layer -> Tensor -> Tensor) (layers : list Layer) (x : Tensor) : bool :=
  match layers with
  | [] => true
  | l :: layers => fits l x && Sequential_match fits call layers (call l x)
  end.

(** Every convolution reached when the layer is called on [x] receives as
    many channels (dimension 1) as it was built for, and its batch
    normalisation was built for the channels the convolution produces. *)
Fixpoint channels_match (l : Layer) (x : Tensor) {struct l} : bool :=
  match l with
  | ConvBNLayer c b =>
    (dim x 1 =? in_channels c) && (num_features b =? out_channels c)
  | AvgPool2D _ _ _ | MaxPool2D _ _ _ | AdaptiveAvgPool2D _ => true
  | Sequential ls => Sequential_match channels_match Layer_call ls x
  | Inception b1 b2 b3 b4 | Inception5a b1 b2 b3 b4 | Inception5b b1 b2 b3 b4 =>
    channels_match b1 x && channels_match b2 x && channels_match b3 x
    && channels_match b4 x
  | Inception4e b1 b2 b3 =>
    channels_match b1 x && channels_match b2 x && channels_match b3 x
  end.

(** The same for [Inception3c], whose third branch is called on the result
    of the second. *)
Definition Inception3c_match (self : Inception3c) (x : Tensor) : bool :=
  channels_match (branch1 self) x && channels_match (branch2 self) x
  && channels_match (branch3 self) (Layer_call (branch2 self) x)
  && channels_match (branch4 self) x.

(** The number of channels a layer produces from [cin] channels when every
    convolution in it fits, read off the configuration of the layer with
    no tensor at hand. *)
Fixpoint channels_of (l : Layer) (cin : Z) {struct l} : option Z :=
  match l with
  | ConvBNLayer c b =>
    if (cin =? in_channels c) && (num_features b =? out_channels c)
    then Some (out_channels c) else None
  | AvgPool2D _ _ _ | MaxPool2D _ _ _ | AdaptiveAvgPool2D _ => Some cin
  | Sequential ls =>
    fold_left (fun acc l => match acc with
                            | Some c => channels_of l c
                            | None => None
                            end) ls (Some cin)
  | Inception b1 b2 b3 b4 | Inception5a b1 b2 b3 b4 | Inception5b b1 b2 b3 b4 =>
    match channels_of b1 cin, channels_of b2 cin, channels_of b3 cin,
          channels_of b4 cin with
    | Some c1, Some c2, Some c3, Some c4 => Some (c1 + c2 + c3 + c4)
    | _, _, _, _ => None
    end
  | Inception4e b1 b2 b3 =>
    match channels_of b1 cin, channels_of b2 cin, channels_of b3 cin with
    | Some c1, Some c2, Some c3 => Some (c1 + c2 + c3)
    | _, _, _ => None
    end
  end.

End Model.

(** What the framework guarantees about the channels (dimension 1) of its
    results on images in the layout NCHW. *)
Class PaddleChannelLaws (P : PaddleNN) : Prop := {
  channels_Conv2D : forall c x,
    rank x = 4%nat -> dim (Conv2D_call c x) 1 = out_channels c;
  channels_BatchNorm2D : forall b x, dim (BatchNorm2D_call b x) 1 = dim x 1;
  channels_relu : forall x, dim (relu x) 1 = dim x 1;
  channels_AvgPool2D : forall k s p x,
    rank x = 4%nat -> dim (AvgPool2D_call k s p x) 1 = dim x 1;
  channels_MaxPool2D : forall k s p x,
    rank x = 4%nat -> dim (MaxPool2D_call k s p x) 1 = dim x 1;
  channels_AdaptiveAvgPool2D : forall o x,
    rank x = 4%nat -> dim (AdaptiveAvgPool2D_call o x) 1 = dim x 1;
  channels_concat : forall x l,
    rank x = 4%nat ->
    dim (concat (x :: l) 1) 1 = fold_right Z.add 0 (map (fun t => dim t 1) (x :: l))
}.

(** What the framework guarantees about the shapes of the last layers: the
    mean over axis 1 of a tensor of three dimensions has two, a [Linear]
    layer sets the last dimension of a matrix to its [out_features], and
    [softmax] keeps the shape. *)
Class PaddleHeadLaws (P : PaddleNN) : Prop := {
  rank_mean : forall x, rank x = 3%nat -> rank (mean x 1) = 2%nat;
  shape_Linear : forall l x a b,
    shape x = [a; b] -> shape (Linear_call l x) = [a; out_features l];
  shape_softmax : forall x, shape (softmax x) = shape x
}.

End ECO.

(** ** The free framework

    A tensor is a node of the computation graph: an input, or an operator
    with its attributes and operands.  Every node holds the shape the
    framework infers for it, as a framework variable does. *)

Module Free.

Inductive Node : Type :=
| Leaf (name : string) (shp : list Z)
| Op (op : string) (ints : list Z) (strs : list string) (args : list Node)
     (shp : list Z).

Definition node_shape (n : Node) : list Z :=
  match n with
  | Leaf _ s => s
  | Op _ _ _ _ s => s
  end.

Definition ints_of (k : int_or_tuple) : list Z :=
  match k with
  | PInt n => [n]
  | PTuple l => l
  end.

(** An axis counted from the end when negative. *)
Definition axis_of (axis : Z) (s : list Z) : nat :=
  Z.to_nat (if axis <? 0 then axis + Z.of_nat (length s) else axis).

Definition dim_at (s : list Z) (i : nat) : Z := nth i s 0.

Definition set_dim (s : list Z) (i : nat) (d : Z) : list Z := <[i := d]> s.

(** Elementwise and normalising operators keep the shape. *)
Definition unary (op : string) (ints : list Z) (strs : list string)
    (x : Node) : Node :=
  Op op ints strs [x] (node_shape x).

Definition binary (op : string) (x y : Node) : Node :=
  Op op [] [] [x; y] (node_shape x).

Definition free_split_section (x : Node) (num : nat) (dim : Z) (i : nat) : Node :=
  let s := node_shape x in
  let a := axis_of dim s in
  Op "split" [Z.of_nat num; dim; Z.of_nat i] [] [x]
     (set_dim s a (dim_at s a / Z.of_nat num)).

Definition free_reshape (x : Node) (target : list Z) : Node :=
  Op "reshape" target [] [x] (infer_reshape (node_shape x) target).

(** The last two dimensions, exchanged under a transposition. *)
Definition mat_dims (s : list Z) (transpose : bool) : list Z * Z * Z :=
  let n := length s in
  let r := dim_at s (n - 2) in
  let c := dim_at s (n - 1) in
  (take (n - 2) s, if transpose then c else r, if transpose then r else c).

Definition free_matmul (x y : Node) (tx ty : bool) : Node :=
  let '(batch, m, _) := mat_dims (node_shape x) tx in
  let '(_, _, p) := mat_dims (node_shape y) ty in
  Op "matmul" [Z.b2z tx; Z.b2z ty] [] [x; y] (batch ++ [m; p]).

Definition free_concat (l : list Node) (axis : Z) : Node :=
  let s := match l with [] => [] | x :: _ => node_shape x end in
  let a := axis_of axis s in
  Op "concat" [axis] [] l
     (set_dim s a (fold_right Z.add 0 (map (fun x => dim_at (node_shape x) a) l))).

(** A convolution with [padding="same"] keeps the spatial dimensions and
    sets the channel dimension, which is dimension 1 in the default layout
    and the last one in the layout [NDHWC]. *)
#[export] Instance FreeFluid : E3D.FluidLayers := {|
  E3D.Tensor := Node;
  E3D.shape := node_shape;
  E3D.conv2d p x oc k pad :=
    Op "conv2d" (Z.of_nat p :: oc :: ints_of k) [pad] [x]
       (set_dim (node_shape x) 1 oc);
  E3D.conv3d p x oc k pad fmt :=
    Op "conv3d" (Z.of_nat p :: oc :: ints_of k) [pad; fmt] [x]
       (set_dim (node_shape x) 4 oc);
  E3D.layer_norm p := unary "layer_norm" [Z.of_nat p] [];
  E3D.split_section := free_split_section;
  E3D.sigmoid := unary "sigmoid" [] [];
  E3D.tanh := unary "tanh" [] [];
  E3D.add := binary "add";
  E3D.add_float x f := unary "add_float" [] [f] x;
  E3D.mul := binary "mul";
  E3D.reshape := free_reshape;
  E3D.matmul := free_matmul;
  E3D.softmax x axis := unary "softmax" [axis] [] x;
  E3D.concat := free_concat
|}.

(** The output size of a convolution or pooling window along one spatial
    dimension. *)
Definition window_out (d k s p : Z) : Z := (d + 2 * p - k) / s + 1.

Definition windowed (shp : list Z) (k s p : Z) : list Z :=
  match shp with
  | [n; c; h; w] => [n; c; window_out h k s p; window_out w k s p]
  | _ => shp
  end.

Definition free_mean (x : Node) (axis : Z) : Node :=
  let s := node_shape x in
  Op "mean" [axis] [] [x] (delete (axis_of axis s) s).

(** The network of [model.Res3D] is one node, with 512 features for each
    clip, the number the last [Linear] layer of the model is built for. *)
#[export] Instance FreePaddle : ECO.PaddleNN := {|
  ECO.Tensor := Node;
  ECO.shape := node_shape;
  ECO.Conv2D_call c x :=
    Op "Conv2D" [Z.of_nat (ECO.conv_id c); ECO.in_channels c; ECO.out_channels c;
                 ECO.kernel_size c; ECO.stride c; ECO.padding c; ECO.groups c;
                 Z.b2z (ECO.bias_attr c)] [] [x]
       (set_dim (windowed (node_shape x) (ECO.kernel_size c) (ECO.stride c)
                          (ECO.padding c)) 1 (ECO.out_channels c));
  ECO.BatchNorm2D_call b :=
    unary "BatchNorm2D" [Z.of_nat (ECO.bn_id b); ECO.num_features b] [];
  ECO.Linear_call l x :=
    Op "Linear" [Z.of_nat (ECO.linear_id l); ECO.in_features l; ECO.out_features l]
       [ECO.weight_initializer l] [x]
       (set_dim (node_shape x) (length (node_shape x) - 1) (ECO.out_features l));
  ECO.AvgPool2D_call k s p x :=
    Op "AvgPool2D" [k; s; p] [] [x] (windowed (node_shape x) k s p);
  ECO.MaxPool2D_call k s p x :=
    Op "MaxPool2D" [k; s; p] [] [x] (windowed (node_shape x) k s p);
  ECO.AdaptiveAvgPool2D_call o x :=
    Op "AdaptiveAvgPool2D" [o] [] [x]
       (set_dim (set_dim (node_shape x) 2 o) 3 o);
  ECO.relu := unary "relu" [] [];
  ECO.concat := free_concat;
  ECO.reshape := free_reshape;
  ECO.mean := free_mean;
  ECO.dropout x p := unary "dropout" [] [p] x;
  ECO.softmax := unary "softmax" [-1] [];
  ECO.accuracy x y := Op "accuracy" [] [] [x; y] [1];
  ECO.ResNet3D := nat;
  ECO.ResNet3D_init _ _ _ := fresh;
  ECO.ResNet3D_call r x :=
    Op "ResNet3D" [Z.of_nat r] [] [x] [dim_at (node_shape x) 0; 512]
|}.

(** The operand reached from a node along a path of operand positions, and
    the input reached along first operands. *)
Fixpoint follow (path : list nat) (n : Node) : Node :=
  match path with
  | [] => n
  | i :: path =>
    match n with
    | Op _ _ _ args _ =>
      match nth_error args i with
      | Some a => follow path a
      | None => n
      end
    | Leaf _ _ => n
    end
  end.

Fixpoint root (n : Node) : string :=
  match n with
  | Leaf name _ => name
  | Op _ _ _ args _ =>
    match args with
    | a :: _ => root a
    | [] => ""
    end
  end.

Definition arity (n : Node) : nat :=
  match n with
  | Leaf _ _ => 0
  | Op _ _ _ args _ => length args
  end.

End Free.

(** ** Concrete cells and tensors *)

Module Examples.
Import Free.

(** A three-dimensional cell over clips of two frames of 4 x 4 pixels and
    three channels, with five output channels, as
    [Eidetic3DLSTMCell(input_shape=(2, 4, 4, 3), output_channels=5,
    kernel_shape=(2, 3, 3), layer_norm=...)] builds it. *)
Definition cell3d (layer_norm : bool) : E3D.EideticLSTMCell :=
  {| E3D._conv_ndims := 3;
     E3D._input_shape := [2; 4; 4; 3];
     E3D._output_channels := 5;
     E3D._kernel_shape := PTuple [2; 3; 3];
     E3D._layer_norm := layer_norm;
     E3D._norm_gain := "1.0";
     E3D._norm_shift := "0.0";
     E3D._forget_bias := "1.0";
     E3D._layer_name := "eidetic_3d_lstm_cell" |}.

(** A cell with [conv_ndims=1], which [input_shape=(4, 3)] allows. *)
Definition cell1d (layer_norm : bool) : E3D.EideticLSTMCell :=
  {| E3D._conv_ndims := 1;
     E3D._input_shape := [4; 3];
     E3D._output_channels := 5;
     E3D._kernel_shape := PTuple [3];
     E3D._layer_norm := layer_norm;
     E3D._norm_gain := "1.0";
     E3D._norm_shift := "0.0";
     E3D._forget_bias := "1.0";
     E3D._layer_name := "eidetic_lstm_cell" |}.

(** Inputs of batch size 1 in the layout NDHWC, and a memory bank of six
    past cell states. *)
Definition x_in : Node := Leaf "inputs" [1; 2; 4; 4; 3].
Definition h_in : Node := Leaf "hidden" [1; 2; 4; 4; 5].
Definition c_in : Node := Leaf "cell" [1; 2; 4; 4; 5].
Definition m_in : Node := Leaf "global_memory" [1; 2; 4; 4; 5].
Definition e_in : Node := Leaf "eidetic_cell" [1; 6; 4; 4; 5].

(** A memory bank that lost its time dimension. *)
Definition e_flat : Node := Leaf "eidetic_cell" [1; 4; 4; 5].

(** A query, and keys and values, of batch size 2. *)
Definition q_in : Node := Leaf "query" [2; 3; 4; 4; 5].
Definition v_in : Node := Leaf "values" [2; 6; 4; 4; 5].

(** A new network for videos of two segments, and a new network of the
    default configuration, each with no tensor object yet. *)
Definition new_world (class_dim seg_num seglen : Z) (modality : string)
  : option ECO.World :=
  match ECO.GoogLeNet_init class_dim seg_num seglen modality None 0%nat with
  | (Ok net, _) => Some {| ECO.self := net; ECO.objects := [] |}
  | (Raise _, _) => None
  end.

(** A video of one clip of two RGB frames of 224 x 224 pixels. *)
Definition video (name : string) : Node := Leaf name [1; 2; 3; 224; 224].

(** The output of the last of the calls [xs] on a new network of two
    segments. *)
Definition last_output (xs : list Node) : option Node :=
  match new_world 101 2 1 "RGB" with
  | Some w =>
    match ECO.GoogLeNet_calls xs w with
    | (Ok outs, _) => last outs
    | (Raise _, _) => None
    end
  | None => None
  end.

(** In an output of the network, the path to the first entry of the joined
    buffer: softmax, [Linear], the 3D operand of the fusion, mean, reshape,
    dropout, reshape, the 3D network, two reshapes, and the first operand
    of the join. *)
Definition path_to_buffer : list nat :=
  [0; 0; 1; 0; 0; 0; 0; 0; 0; 0; 0]%nat.

(** The input the first entry of the joined buffer was computed from, in
    an output of the network. *)
Definition buffer_source (output : option Node) : option string :=
  root <$> (follow path_to_buffer <$> output).

(** The block [Inception3c(320, 128, 160, 64, 96, 96)] of the network. *)
Definition block_3c : option ECO.Inception3c :=
  match ECO.Inception3c_init 320 128 160 64 96 96 0%nat with
  | (Ok b, _) => Some b
  | (Raise _, _) => None
  end.

(** Another hidden state, cell state and memory bank for the cell. *)
Definition h_alt : Node := Leaf "hidden_alt" [1; 2; 4; 4; 5].
Definition c_alt : Node := Leaf "cell_alt" [1; 2; 4; 4; 5].
Definition e_alt : Node := Leaf "eidetic_cell_alt" [1; 3; 4; 4; 5].

(** The cell [cell3d true] built with another gain and shift of the layer
    normalisation, another input shape and another name. *)
Definition cell3d_other : E3D.EideticLSTMCell :=
  {| E3D._conv_ndims := 3;
     E3D._input_shape := [8; 16; 16; 1];
     E3D._output_channels := 5;
     E3D._kernel_shape := PTuple [2; 3; 3];
     E3D._layer_norm := true;
     E3D._norm_gain := "2.0";
     E3D._norm_shift := "0.5";
     E3D._forget_bias := "1.0";
     E3D._layer_name := "other" |}.

(** A batch of eight RGB images, the input of the example in the
    docstring of [GoogLeNet], and the frames of one video of two segments
    as one batch. *)
Definition images : Node := Leaf "data" [8; 3; 224; 224].
Definition frames : Node := Leaf "frames" [2; 3; 224; 224].

End Examples.

(** ** Facts about the Eidetic LSTM cell *)

Module E3DFacts.
Import E3D.

(** *** Shapes of a reshape *)






Lemma attn_checks_inv qs ks vs b w h c :
  _attn_checks qs ks vs = Ok (b, w, h, c) ->
  (qs = [b; w; h; c] \/ exists l, qs = [b; l; w; h; c])
  /\ (exists kb ka, ks = [kb; ka; w; h; c])
  /\ (exists vb va, vs = [vb; va; w; h; c]).
Proof.
  unfold _attn_checks. intros H.
  repeat match type of H with
         | context [match ?l with [] => _ | _ :: _ => _ end] => destruct l
         | context [if ?b then _ else _] => destruct b eqn:?
         end;
    try discriminate; injection H as <- <- <- <-;
    repeat match goal with
           | E : _ || _ = false |- _ => apply orb_false_elim in E; destruct E
           | E : negb _ = false |- _ => apply negb_false_iff, Z.eqb_eq in E
           end; subst; eauto 10.
Qed.

(** The checks of [_attn] pass on operands of the shapes they ask for. *)
Lemma attn_checks_accepts qs ks vs b w h c :
  (qs = [b; w; h; c] \/ exists l, qs = [b; l; w; h; c]) ->
  (exists kb ka, ks = [kb; ka; w; h; c]) ->
  (exists vb va, vs = [vb; va; w; h; c]) ->
  _attn_checks qs ks vs = Ok (b, w, h, c).
Proof.
  intros Hq (kb & ka & ->) (vb & va & ->).
  destruct Hq as [-> | [l ->]]; cbn; rewrite !Z.eqb_refl; reflexivity.
Qed.

(** *** The cell over any framework *)

(** Runs the convolutions of a call whose [conv_ndims] is 2 or 3, given by
    [Hnd], with the lemma [conv] for one of them. *)
Ltac run_convs conv self Hnd :=
  repeat first [rewrite (conv self) by exact Hnd | progress cbn].

Section Facts.
Context {F : FluidLayers}.

Lemma conv_none (self : EideticLSTMCell) x oc ks n :
  _conv_ndims self <> 2 -> _conv_ndims self <> 3 ->
  _conv self x oc ks n = (Ok PyNone, n).
Proof.
  intros H2 H3. unfold _conv.
  destruct (Z.eqb_spec (_conv_ndims self) 2); [contradiction |].
  destruct (Z.eqb_spec (_conv_ndims self) 3); [contradiction |].
  reflexivity.
Qed.

Lemma conv_tensor (self : EideticLSTMCell) x oc ks n :
  _conv_ndims self = 2 \/ _conv_ndims self = 3 ->
  _conv self (PyTensor x) oc ks n = (Ok (PyTensor (spec_conv self n x oc ks)), S n).
Proof.
  intros [H | H]; unfold _conv, spec_conv; rewrite H; reflexivity.
Qed.

(** C2: constructing a cell raises [ValueError] if and only if [conv_ndims]
    differs from [len(input_shape) - 1]; in every other case construction
    succeeds and the cell holds exactly the arguments given. *)
Theorem init_value_error_iff conv_ndims input_shape oc ks ln g sh fb name :
  ((exists msg args,
       EideticLSTMCell_init conv_ndims input_shape oc ks ln g sh fb name
       = Raise (ValueError msg args))
   <-> conv_ndims <> Z.of_nat (length input_shape) - 1)
  /\ EideticLSTMCell_init conv_ndims input_shape oc ks ln g sh fb name
     = if conv_ndims =? Z.of_nat (length input_shape) - 1 then
         Ok {| _conv_ndims := conv_ndims; _input_shape := input_shape;
               _output_channels := oc; _kernel_shape := ks; _layer_norm := ln;
               _norm_gain := g; _norm_shift := sh; _forget_bias := fb;
               _layer_name := name |}
       else Raise (ValueError "Invalid input_shape {} for conv_ndims={}."
                              [input_shape; [conv_ndims]]).
Proof.
  unfold EideticLSTMCell_init.
  destruct (Z.eqb_spec conv_ndims (Z.of_nat (length input_shape) - 1)) as [E | E];
    cbn; split; try reflexivity.
  - split; [intros (msg & args & H); discriminate | intros H; contradiction].
  - split; [intros _; exact E | intros _; eauto].
Qed.

Lemma call_with_layer_norm (self : EideticLSTMCell) inputs hidden cell gm e n :
  _layer_norm self = true ->
  _conv_ndims self = 2 \/ _conv_ndims self = 3 ->
  match _attn self (spec_r_t self inputs hidden n) e e with
  | Raise err =>
      EideticLSTMCell_call self inputs hidden cell gm e n = (Raise err, (4 + n)%nat)
  | Ok a =>
      exists output new_gm,
        EideticLSTMCell_call self inputs hidden cell gm e n
        = (Ok (output, spec_new_cell self inputs hidden cell a n, new_gm),
           (10 + n)%nat)
  end.
Proof.
  intros Hln Hnd.
  unfold EideticLSTMCell_call, bind, _norm, split4, split7, load, as_tensor,
    fresh, ret, lift, raise.
  rewrite Hln.
  run_convs conv_tensor self Hnd.
  change (sigmoid (add (split_section (layer_norm (S (S (S n))) (spec_conv self (S (S n)) inputs (7 * _output_channels self) (_kernel_shape self))) 7 (-1) 2)
     (split_section (layer_norm (S n) (spec_conv self n hidden (4 * _output_channels self) (_kernel_shape self))) 4 (-1) 2)))
    with (spec_r_t self inputs hidden n).
  destruct (_attn self (spec_r_t self inputs hidden n) e e) as [a | err]; cbn.
  - run_convs conv_tensor self Hnd.
    eexists _, _. reflexivity.
  - reflexivity.
Qed.

Lemma attn_ok (self : EideticLSTMCell) q k v b w h c :
  _attn_checks (shape q) (shape k) (shape v) = Ok (b, w, h, c) ->
  _attn self q k v
  = Ok (spec_attention b c (attn_target (shape q) b w h c) q k v).
Proof.
  intros H. unfold _attn. rewrite H. unfold spec_attention, attn_target.
  destruct (length (shape q) =? 4)%nat; reflexivity.
Qed.

Lemma attn_raise (self : EideticLSTMCell) q k v err :
  _attn_checks (shape q) (shape k) (shape v) = Raise err ->
  _attn self q k v = Raise err.
Proof. intros H. unfold _attn. rewrite H. reflexivity. Qed.

Lemma attn_checks_value_error qs ks vs err :
  _attn_checks qs ks vs = Raise err -> exists msg args, err = ValueError msg args.
Proof.
  unfold _attn_checks. intros H.
  repeat match type of H with
         | context [match ?l with [] => _ | _ :: _ => _ end] => destruct l
         | context [if ?b then _ else _] => destruct b
         end;
    try discriminate; injection H as <-; eauto.
Qed.

Lemma call_conv_none (self : EideticLSTMCell) inputs hidden cell gm e n :
  _conv_ndims self <> 2 -> _conv_ndims self <> 3 ->
  EideticLSTMCell_call self inputs hidden cell gm e n
  = (Raise (NoneTypeError (if _layer_norm self then "layer_norm" else "split")), n).
Proof.
  intros H2 H3. unfold EideticLSTMCell_call, bind.
  rewrite (conv_none self) by assumption.
  destruct (_layer_norm self); reflexivity.
Qed.

Lemma call_without_layer_norm (self : EideticLSTMCell) inputs hidden cell gm e n :
  _layer_norm self = false ->
  _conv_ndims self = 2 \/ _conv_ndims self = 3 ->
  EideticLSTMCell_call self inputs hidden cell gm e n
  = (Raise (UnboundLocalError "i_x"), (2 + n)%nat).
Proof.
  intros Hln Hnd.
  unfold EideticLSTMCell_call, bind, split4, load, as_tensor, fresh, ret, raise.
  rewrite Hln.
  run_convs conv_tensor self Hnd.
  reflexivity.
Qed.

Lemma conv_ndims_cases (self : EideticLSTMCell) :
  (_conv_ndims self = 2 \/ _conv_ndims self = 3)
  \/ (_conv_ndims self <> 2 /\ _conv_ndims self <> 3).
Proof. lia. Qed.

(** C1: for a cell with layer normalisation and two- or three-dimensional
    convolutions, on tensors that pass the shape checks of [_attn], the
    call returns, and the new cell state is the layer normalisation of the
    cell state plus the attention of the recall gate [r_t] over the memory
    bank (as keys and as values), plus [i_t * g_t]; the gates are the
    sigmoid or tanh of sums of sections of the layer-normalised same-padded
    convolutions of the input and of the hidden state. *)
Theorem new_cell_state (self : EideticLSTMCell) inputs hidden cell gm e n b w h c :
  _layer_norm self = true ->
  _conv_ndims self = 2 \/ _conv_ndims self = 3 ->
  let r_t := spec_r_t self inputs hidden n in
  _attn_checks (shape r_t) (shape e) (shape e) = Ok (b, w, h, c) ->
  exists output new_gm n',
    EideticLSTMCell_call self inputs hidden cell gm e n
    = (Ok (output,
           spec_new_cell self inputs hidden cell
             (spec_attention b c (attn_target (shape r_t) b w h c) r_t e e) n,
           new_gm), n').
Proof.
  intros Hln Hnd r_t Hc.
  pose proof (call_with_layer_norm self inputs hidden cell gm e n Hln Hnd) as H.
  fold r_t in H. rewrite (attn_ok self _ _ _ _ _ _ _ Hc) in H.
  destruct H as (output & new_gm & H). eauto.
Qed.

(** The four messages of the [raise ValueError] statements of [_attn]. *)
Lemma attn_checks_message qs ks vs msg args :
  _attn_checks qs ks vs = Raise (ValueError msg args) ->
  msg = "Invalid input_shape {} for the query"
  \/ msg = "Invalid input_shape {} for the keys"
  \/ msg = "Invalid input_shape {} for the values"
  \/ msg = "Invalid input_shape {} and {}, not compatible.".
Proof.
  unfold _attn_checks. intros H.
  repeat match type of H with
         | context [match ?l with [] => _ | _ :: _ => _ end] => destruct l
         | context [if ?b then _ else _] => destruct b
         end;
    try discriminate; injection H as <- _; auto.
Qed.

(** C3, amended: shape checks that raise [ValueError] are made by
    [__init__] (see C2) and by [_attn], and by nothing else.  [_norm] and
    [_conv] raise no [ValueError].  The [raise] statements of [_attn] raise
    [ValueError] and nothing else, with one of four messages, and one of
    them is reached exactly when the query has neither four nor five
    dimensions, or the keys or the values do not have five dimensions of
    which the last three are the width, the height and the channels of
    the query.  So a call of the cell can raise [ValueError] from a shape
    check: when it does, the cell has layer normalisation, its
    convolutions are two- or three-dimensional, and the error is the one
    [_attn] raises on the recall gate and the memory bank, which then do
    not have such shapes. *)
Theorem value_error_only_from_attn (self : EideticLSTMCell) inputs hidden cell gm e n :
  (forall x scope p msg args,
      fst (_norm self x scope p) <> Raise (ValueError msg args))
  /\ (forall x oc ks p msg args,
         fst (_conv self x oc ks p) <> Raise (ValueError msg args))
  /\ (forall q k v,
         (exists err, _attn self q k v = Raise err)
         <-> ~ (exists b w h c,
                   (shape q = [b; w; h; c] \/ exists l, shape q = [b; l; w; h; c])
                   /\ (exists kb ka, shape k = [kb; ka; w; h; c])
                   /\ (exists vb va, shape v = [vb; va; w; h; c])))
  /\ (forall q k v err,
         _attn self q k v = Raise err ->
         exists msg args,
           err = ValueError msg args
           /\ (msg = "Invalid input_shape {} for the query"
               \/ msg = "Invalid input_shape {} for the keys"
               \/ msg = "Invalid input_shape {} for the values"
               \/ msg = "Invalid input_shape {} and {}, not compatible."))
  /\ (forall msg args,
         fst (EideticLSTMCell_call self inputs hidden cell gm e n)
         = Raise (ValueError msg args) ->
         _layer_norm self = true
         /\ (_conv_ndims self = 2 \/ _conv_ndims self = 3)
         /\ _attn self (spec_r_t self inputs hidden n) e e
            = Raise (ValueError msg args)
         /\ ~ (exists b w h c,
                  (shape (spec_r_t self inputs hidden n) = [b; w; h; c]
                   \/ exists l, shape (spec_r_t self inputs hidden n) = [b; l; w; h; c])
                  /\ exists eb el, shape e = [eb; el; w; h; c])).
Proof.
  assert (Hrej : forall q k v err,
             _attn_checks (shape q) (shape k) (shape v) = Raise err ->
             ~ (exists b w h c,
                   (shape q = [b; w; h; c] \/ exists l, shape q = [b; l; w; h; c])
                   /\ (exists kb ka, shape k = [kb; ka; w; h; c])
                   /\ (exists vb va, shape v = [vb; va; w; h; c]))).
  { intros q k v err Hc (b & w & h & c & Hq & Hk & Hv).
    rewrite (attn_checks_accepts _ _ _ b w h c Hq Hk Hv) in Hc. discriminate. }
  split; [| split; [| split; [| split]]].
  - intros [| t] scope p msg args; cbn; discriminate.
  - intros x oc ks p msg args. unfold _conv.
    destruct (_conv_ndims self =? 2), (_conv_ndims self =? 3), x; cbn; discriminate.
  - intros q k v.
    destruct (_attn_checks (shape q) (shape k) (shape v))
      as [[[[b w] h] c] | err'] eqn:Hc.
    + rewrite (attn_ok self _ _ _ _ _ _ _ Hc).
      split; [intros [err H]; discriminate |].
      intros H. exfalso. apply H. exists b, w, h, c.
      exact (attn_checks_inv _ _ _ _ _ _ _ Hc).
    + rewrite (attn_raise self _ _ _ _ Hc).
      split; [intros _; exact (Hrej q k v err' Hc) | eauto].
  - intros q k v err.
    destruct (_attn_checks (shape q) (shape k) (shape v))
      as [[[[b w] h] c] | err'] eqn:Hc.
    + rewrite (attn_ok self _ _ _ _ _ _ _ Hc). discriminate.
    + rewrite (attn_raise self _ _ _ _ Hc). intros [= ->].
      destruct (attn_checks_value_error _ _ _ _ Hc) as (msg & args & ->).
      exists msg, args. split; [reflexivity |].
      exact (attn_checks_message _ _ _ _ _ Hc).
  - intros msg args.
    destruct (conv_ndims_cases self) as [Hnd | [H2 H3]].
    + destruct (_layer_norm self) eqn:Hln.
      * pose proof (call_with_layer_norm self inputs hidden cell gm e n Hln Hnd) as H.
        destruct (_attn_checks (shape (spec_r_t self inputs hidden n)) (shape e) (shape e))
          as [[[[b w] h] c] | err] eqn:Hc.
        -- rewrite (attn_ok self _ _ _ _ _ _ _ Hc) in H.
           destruct H as (output & new_gm & ->). cbn. discriminate.
        -- rewrite (attn_raise self _ _ _ _ Hc) in H. rewrite H. cbn.
           intros [= ->]. split; [reflexivity |]. split; [exact Hnd |].
           split; [exact (attn_raise self _ _ _ _ Hc) |].
           intros (b & w & h & c & Hq & Hk).
           apply (Hrej _ _ _ _ Hc). exists b, w, h, c. auto.
      * rewrite call_without_layer_norm by assumption. cbn. discriminate.
    + rewrite call_conv_none by assumption. cbn. discriminate.
Qed.

(** C8, amended: a call returns only for a cell built with
    [layer_norm=True].  For a cell with [layer_norm=False] every call
    fails before any result: with [UnboundLocalError] on [i_x] when
    [conv_ndims] is 2 or 3, and on the [None] that [_conv] returned, in
    [split], for any other [conv_ndims]. *)
Theorem without_layer_norm (self : EideticLSTMCell) inputs hidden cell gm e n :
  (forall r n', EideticLSTMCell_call self inputs hidden cell gm e n = (Ok r, n') ->
                _layer_norm self = true)
  /\ (_layer_norm self = false ->
      exists err n',
        EideticLSTMCell_call self inputs hidden cell gm e n = (Raise err, n')
        /\ (_conv_ndims self = 2 \/ _conv_ndims self = 3 ->
            err = UnboundLocalError "i_x")
        /\ (_conv_ndims self <> 2 /\ _conv_ndims self <> 3 ->
            err = NoneTypeError "split")).
Proof.
  assert (Hfalse : _layer_norm self = false ->
      exists err n',
        EideticLSTMCell_call self inputs hidden cell gm e n = (Raise err, n')
        /\ (_conv_ndims self = 2 \/ _conv_ndims self = 3 ->
            err = UnboundLocalError "i_x")
        /\ (_conv_ndims self <> 2 /\ _conv_ndims self <> 3 ->
            err = NoneTypeError "split")).
  { intros Hln. destruct (conv_ndims_cases self) as [Hnd | [H2 H3]].
    - eexists _, _. split; [apply call_without_layer_norm; assumption |].
      split; [reflexivity | intros [? ?]; lia].
    - eexists _, _. split; [apply call_conv_none; assumption |].
      rewrite Hln. split; [lia | reflexivity]. }
  split; [| exact Hfalse].
  intros r n' H. destruct (_layer_norm self); [reflexivity |].
  destruct (Hfalse eq_refl) as (err & n'' & H' & _). congruence.
Qed.

(** C9: construction accepts [conv_ndims=1] for an [input_shape] of length
    2; [_conv] returns [None] for every [conv_ndims] other than 2 and 3;
    so every call of a cell with [conv_ndims=1] fails on the [None] of the
    first convolution, in the first operator applied to it and before any
    parameter is created; and a call that returns comes from a cell with
    [conv_ndims] 2 or 3. *)
Theorem conv_ndims_one :
  (forall input_shape oc ks ln g sh fb name,
      length input_shape = 2%nat ->
      exists self,
        EideticLSTMCell_init 1 input_shape oc ks ln g sh fb name = Ok self
        /\ _conv_ndims self = 1 /\ _layer_norm self = ln)
  /\ (forall (self : EideticLSTMCell) x oc ks n,
         _conv_ndims self <> 2 -> _conv_ndims self <> 3 ->
         _conv self x oc ks n = (Ok PyNone, n))
  /\ (forall (self : EideticLSTMCell) inputs hidden cell gm e n,
         _conv_ndims self = 1 ->
         EideticLSTMCell_call self inputs hidden cell gm e n
         = (Raise (NoneTypeError
                     (if _layer_norm self then "layer_norm" else "split")), n))
  /\ (forall (self : EideticLSTMCell) inputs hidden cell gm e n r n',
         EideticLSTMCell_call self inputs hidden cell gm e n = (Ok r, n') ->
         _conv_ndims self = 2 \/ _conv_ndims self = 3).
Proof.
  split; [| split; [| split]].
  - intros input_shape oc ks ln g sh fb name Hlen.
    unfold EideticLSTMCell_init. rewrite Hlen. cbn. eauto.
  - intros. apply conv_none; assumption.
  - intros self inputs hidden cell gm e n H.
    apply call_conv_none; lia.
  - intros self inputs hidden cell gm e n r n' H.
    destruct (conv_ndims_cases self) as [Hnd | [H2 H3]]; [assumption |].
    rewrite call_conv_none in H by assumption. discriminate.
Qed.
End Facts.

Section Attn.
Context {F : FluidLayers} {L : FluidShapeLaws F}.

End Attn.
End E3DFacts.

(** ** The cell over the free framework *)

Module E3DExamples.
Import E3D E3DFacts Free Examples.

(** The free framework infers the shapes the laws ask for. *)
#[export] Instance FreeFluid_laws : FluidShapeLaws FreeFluid.
Proof.
  split.
  - intros x target _. reflexivity.
  - intros x y b m k p Hx Hy. cbn in *. unfold free_matmul, mat_dims.
    rewrite Hx, Hy. reflexivity.
  - intros x y b m k p Hx Hy. cbn in *. unfold free_matmul, mat_dims.
    rewrite Hx, Hy. reflexivity.
  - intros x axis. reflexivity.
Qed.

(** C1 at a three-dimensional cell with five output channels, on one clip
    of two frames and a memory bank of six states. *)
Lemma new_cell_state_witness :
  Eidetic3DLSTMCell_init "eidetic_3d_lstm_cell" [2; 4; 4; 3] 5 (PTuple [2; 3; 3])
    true "1.0" "0.0" "1.0" = Ok (cell3d true)
  /\ exists output new_gm n',
      EideticLSTMCell_call (cell3d true) x_in h_in c_in m_in e_in 0%nat
      = (Ok (output,
             spec_new_cell (cell3d true) x_in h_in c_in
               (spec_attention 1 5
                  (attn_target (shape (spec_r_t (cell3d true) x_in h_in 0)) 1 4 4 5)
                  (spec_r_t (cell3d true) x_in h_in 0) e_in e_in)
               0,
             new_gm), n').
Proof.
  split; [reflexivity |].
  apply (new_cell_state (F := FreeFluid) (cell3d true) x_in h_in c_in m_in e_in 0%nat 1 4 4 5);
    [reflexivity | right; reflexivity | vm_compute; reflexivity].
Defined.


(** Against C3: [_attn] raises [ValueError] on keys of four dimensions,
    and so does a call of the cell whose memory bank has four
    dimensions. *)
Lemma call_raises_value_error :
  _attn (cell3d true) q_in (Leaf "keys" [2; 4; 4; 5]) v_in
  = Raise (ValueError "Invalid input_shape {} for the keys" [[2; 4; 4; 5]])
  /\ fst (EideticLSTMCell_call (cell3d true) x_in h_in c_in m_in e_flat 0%nat)
     = Raise (ValueError "Invalid input_shape {} for the keys" [[1; 4; 4; 5]]).
Proof. split; vm_compute; reflexivity. Qed.

(** Against C8: a cell with [conv_ndims=1] and [layer_norm=False] can be
    constructed, and its call fails in [split], on the [None] returned by
    [_conv], not on an unbound variable. *)
Lemma not_an_unbound_variable :
  EideticLSTMCell_init 1 [4; 3] 5 (PTuple [3]) false "1.0" "0.0" "1.0"
    "eidetic_lstm_cell" = Ok (cell1d false)
  /\ _layer_norm (cell1d false) = false
  /\ EideticLSTMCell_call (cell1d false) (Leaf "inputs" [1; 4; 3])
       (Leaf "hidden" [1; 4; 5]) (Leaf "cell" [1; 4; 5])
       (Leaf "global_memory" [1; 4; 5]) (Leaf "eidetic_cell" [1; 6; 4; 5]) 0%nat
     = (Raise (NoneTypeError "split"), 0%nat).
Proof. repeat split. Qed.

(** C3 at a memory bank of four dimensions: the [ValueError] of the call
    is the one [_attn] raises on the recall gate and the memory bank. *)
Lemma value_error_only_from_attn_witness :
  fst (EideticLSTMCell_call (cell3d true) x_in h_in c_in m_in e_flat 0%nat)
  = Raise (ValueError "Invalid input_shape {} for the keys" [[1; 4; 4; 5]])
  /\ _attn (cell3d true) (spec_r_t (cell3d true) x_in h_in 0) e_flat e_flat
     = Raise (ValueError "Invalid input_shape {} for the keys" [[1; 4; 4; 5]]).
Proof.
  assert (Hcall : fst (EideticLSTMCell_call (cell3d true) x_in h_in c_in m_in e_flat 0%nat)
                  = Raise (ValueError "Invalid input_shape {} for the keys"
                             [[1; 4; 4; 5]]))
    by (vm_compute; reflexivity).
  split; [exact Hcall |].
  destruct (value_error_only_from_attn (F := FreeFluid) (cell3d true)
              x_in h_in c_in m_in e_flat 0%nat) as (_ & _ & _ & _ & H).
  destruct (H _ _ Hcall) as (_ & _ & Ha & _). exact Ha.
Defined.

(** C8 at a three-dimensional cell without layer normalisation. *)
Lemma without_layer_norm_witness :
  exists n',
    EideticLSTMCell_call (cell3d false) x_in h_in c_in m_in e_in 0%nat
    = (Raise (UnboundLocalError "i_x"), n').
Proof.
  destruct (without_layer_norm (F := FreeFluid) (cell3d false)
              x_in h_in c_in m_in e_in 0%nat) as (_ & H).
  destruct (H eq_refl) as (err & n' & Hcall & Hunbound & _).
  exists n'. rewrite Hcall, (Hunbound (or_intror eq_refl)). reflexivity.
Defined.

(** C9 at a cell with [conv_ndims=1] and layer normalisation. *)
Lemma conv_ndims_one_witness :
  (exists self,
      EideticLSTMCell_init 1 [4; 3] 5 (PTuple [3]) true "1.0" "0.0" "1.0"
        "eidetic_lstm_cell" = Ok self
      /\ _conv_ndims self = 1 /\ _layer_norm self = true)
  /\ EideticLSTMCell_call (cell1d true) (Leaf "inputs" [1; 4; 3])
       (Leaf "hidden" [1; 4; 5]) (Leaf "cell" [1; 4; 5])
       (Leaf "global_memory" [1; 4; 5]) (Leaf "eidetic_cell" [1; 6; 4; 5]) 0%nat
     = (Raise (NoneTypeError "layer_norm"), 0%nat).
Proof.
  destruct (conv_ndims_one (F := FreeFluid)) as (Hinit & _ & Hcall & _).
  split.
  - apply Hinit. reflexivity.
  - apply (Hcall (cell1d true)). reflexivity.
Defined.

End E3DExamples.

(** ** Facts about the ECO network *)

Module ECOFacts.
Import ECO.

Section Facts.
Context {P : PaddleNN} {L : PaddleRankLaws P}.


Lemma rank_Layer_call (l : Layer) : forall x, rank (Layer_call l x) = rank x.
Proof.
  induction l as [c b | k s p | k s p | o | ls IH | b1 b2 b3 b4 IH1 _ _ _
                 | b1 b2 b3 IH1 _ _ | b1 b2 b3 b4 IH1 _ _ _ | b1 b2 b3 b4 IH1 _ _ _]
    using Layer_nested_ind; intros x; cbn.
  - unfold ConvBNLayer_forward.
    rewrite rank_relu, rank_BatchNorm2D, rank_relu, rank_Conv2D. reflexivity.
  - apply rank_AvgPool2D.
  - apply rank_MaxPool2D.
  - apply rank_AdaptiveAvgPool2D.
  - unfold Sequential_forward. revert x.
    induction IH as [| l ls Hl _ IHls]; intros x; cbn; [reflexivity |].
    rewrite IHls. apply Hl.
  - unfold Inception_forward. rewrite rank_concat. apply IH1.
  - unfold Inception4e_forward. rewrite rank_concat. apply IH1.
  - unfold Inception5a_forward. rewrite rank_concat. apply IH1.
  - unfold Inception5b_forward. rewrite rank_concat. apply IH1.
Qed.

(** Python list operations at positions within range *)
Lemma py_index_nat what (i len : nat) :
  (i < len)%nat -> py_index what (Z.of_nat i) len = Ok i.
Proof.
  intros H. unfold py_index.
  destruct (Z.leb_spec 0 (Z.of_nat i)); [| lia].
  destruct (Z.ltb_spec (Z.of_nat i) (Z.of_nat len)); [| lia].
  cbn. rewrite Nat2Z.id. reflexivity.
Qed.

Lemma py_getitem_nat {A} (l : list A) (i : nat) (a : A) :
  l !! i = Some a -> py_getitem l (Z.of_nat i) = Ok a.
Proof.
  intros H. unfold py_getitem.
  rewrite py_index_nat by (eapply lookup_lt_Some; exact H).
  rewrite H. reflexivity.
Qed.

Lemma py_getitem_last {A} (l : list A) (a : A) :
  py_getitem (l ++ [a]) (-1) = Ok a.
Proof.
  unfold py_getitem, py_index. rewrite length_app. cbn [length].
  destruct (Z.leb_spec 0 (-1)); [lia |]. cbn [andb].
  destruct (Z.leb_spec (- Z.of_nat (length l + 1)) (-1)); [| lia].
  cbn. replace (Z.to_nat (Z.of_nat (length l + 1) + -1)) with (length l) by lia.
  rewrite list_lookup_middle by reflexivity. reflexivity.
Qed.

Lemma py_setitem_nat {A} (l : list A) (i : nat) (a : A) :
  (i < length l)%nat -> py_setitem l (Z.of_nat i) a = Ok (<[i := a]> l).
Proof.
  intros H. unfold py_setitem. rewrite py_index_nat by exact H. reflexivity.
Qed.

Lemma append_times_replicate (k r : nat) (l : list nat) :
  append_times k r l = l ++ replicate k r.
Proof.
  revert l. induction k as [| k IH]; intros l; cbn.
  - rewrite app_nil_r. reflexivity.
  - rewrite IH, <- app_assoc. reflexivity.
Qed.

(** Line 553 on a full buffer: every entry moves one position to the left
    and the last one stays. *)
Lemma shift_left {A} (l : list A) (n : Z) :
  Z.of_nat (length l) = n -> 1 <= n ->
  py_assign_slice_to l (n - 1) (py_slice_from l 1)
  = drop 1 l ++ drop (length l - 1) l.
Proof.
  intros Hlen Hn. unfold py_assign_slice_to, py_slice_from, py_slice_bound.
  destruct (Z.ltb_spec (n - 1) 0); [lia |].
  destruct (Z.ltb_spec 1 0); [lia |].
  replace (Z.to_nat (Z.min 1 (Z.of_nat (length l)))) with 1%nat by lia.
  replace (Z.to_nat (Z.min (n - 1) (Z.of_nat (length l)))) with (length l - 1)%nat by lia.
  reflexivity.
Qed.

Lemma shift_left_set {A} (l : list A) (a : A) :
  (1 <= length l)%nat ->
  <[(length l - 1)%nat := a]> (drop 1 l ++ drop (length l - 1) l) = drop 1 l ++ [a].
Proof.
  intros Hlen.
  rewrite insert_app_r_alt by (rewrite length_drop; lia).
  rewrite length_drop. replace (length l - 1 - (length l - 1))%nat with 0%nat by lia.
  f_equal.
  destruct (drop (length l - 1) l) as [| z [| z' rest]] eqn:E.
  - apply (f_equal length) in E. rewrite length_drop in E. cbn in E. lia.
  - reflexivity.
  - apply (f_equal length) in E. rewrite length_drop in E. cbn in E. lia.
Qed.

Lemma spec_buffer_length (n : Z) (l : list nat) (r : nat) :
  1 <= n -> Z.of_nat (length l) <= n ->
  Z.of_nat (length (spec_buffer n l r)) = n.
Proof.
  intros Hn Hl. unfold spec_buffer.
  destruct (Z.eqb_spec (Z.of_nat (length l)) n).
  - rewrite length_app, length_drop. cbn. lia.
  - rewrite length_app, length_replicate. lia.
Qed.

Lemma update_out_3d_spec (r : nat) (w : World) :
  1 <= seg_num (self w) ->
  exists objs',
    update_out_3d r w
    = (Ok tt, {| self := self (set_out_3d (spec_buffer (seg_num (self w))
                                             (out_3d (self w)) r) w);
                 objects := objs' |})
    /\ value <$> objs' = value <$> objects w.
Proof.
  intros Hn. unfold update_out_3d, spec_buffer, bind, get.
  destruct (Z.eqb_spec (Z.of_nat (length (out_3d (self w)))) (seg_num (self w)))
    as [Hfull | Hshort].
  - unfold put, lift. cbn [self set_out_3d out_3d].
    rewrite (shift_left _ _ Hfull Hn).
    set (l := out_3d (self w)) in *.
    replace (seg_num (self w) - 1) with (Z.of_nat (length l - 1)) by lia.
    rewrite py_setitem_nat by (rewrite length_app, !length_drop; lia).
    rewrite shift_left_set by lia.
    assert (Hget : exists r', py_getitem (drop 1 l ++ [r]) (seg_num (self w) - 2) = Ok r').
    { destruct (Z.eq_dec (seg_num (self w)) 1) as [E1 | E1].
      - rewrite E1. exists r. apply py_getitem_last.
      - destruct (lookup_lt_is_Some_2 (drop 1 l ++ [r]) (length l - 2)) as [r' Hr'].
        + rewrite length_app, length_drop. cbn. lia.
        + exists r'. replace (seg_num (self w) - 2) with (Z.of_nat (length l - 2)) by lia.
          apply py_getitem_nat. exact Hr'. }
    destruct Hget as [r' ->]. unfold set_stop_gradient.
    eexists. split; [reflexivity |]. cbn [objects].
    rewrite (list_fmap_alter value _ id).
    + apply list_alter_id. reflexivity.
    + apply Forall_true. reflexivity.
  - unfold put, fill_out_3d. rewrite append_times_replicate.
    eexists. split; reflexivity.
Qed.

Lemma shape_at_ok (t : Tensor) (i : nat) (w : World) :
  (i < rank t)%nat -> shape_at t (Z.of_nat i) w = (Ok (dim t i), w).
Proof.
  intros H. unfold shape_at, lift, dim.
  destruct (lookup_lt_is_Some_2 (shape t) i H) as [d Hd].
  rewrite (py_getitem_nat _ _ _ Hd). rewrite (nth_lookup_Some _ _ _ _ Hd). reflexivity.
Qed.

Lemma rank_spec_join (t : Tensor) (ts : list Tensor) :
  rank (spec_join t ts) = rank t.
Proof.
  unfold spec_join. revert t. induction ts as [| t' ts IH]; intros t; cbn.
  - reflexivity.
  - rewrite IH. apply rank_concat.
Qed.


Lemma deref_ok (w : World) (r : nat) (t : Tensor) :
  refers (objects w) r t -> deref r w = (Ok t, w).
Proof.
  unfold refers, deref. rewrite list_lookup_fmap.
  destruct (objects w !! r) as [o |]; cbn; [| discriminate].
  intros [= <-]. reflexivity.
Qed.

Lemma tensors_of_refers (objs : list TensorObj) (l : list nat) (ts : list Tensor) :
  Forall2 (refers objs) l ts -> tensors_of objs l = ts.
Proof.
  unfold tensors_of, refers.
  induction 1 as [| r t l ts Hr _ IH]; cbn; [reflexivity |].
  rewrite list_lookup_fmap in Hr. rewrite Hr. cbn. rewrite IH. reflexivity.
Qed.

(** Lines 562 and 563: the loop over the positions after the first. *)
Lemma concat_loop (w : World) (l : list nat) (post : list nat) :
  forall (pre : list nat) (ts : list Tensor) (y : Tensor) (k : nat)
         (acc : Py World Tensor),
    l = pre ++ post -> length pre = S k ->
    Forall2 (refers (objects w)) post ts ->
    acc w = (Ok y, w) ->
    fold_left
      (fun acc i =>
         (let! y_out_3d := acc in
          let! r := lift (py_getitem l (Z.of_nat i + 1)) in
          let! t := deref r in
          ret (concat [y_out_3d; t] 0))%py)
      (seq k (length post)) acc w
    = (Ok (spec_join y ts), w).
Proof.
  induction post as [| r post IH]; intros pre ts y k acc Hl Hpre Hts Hacc.
  - inversion Hts; subst. cbn. exact Hacc.
  - inversion Hts as [| ? t ? ts' Hr Hts']; subst. cbn [length seq fold_left].
    apply (IH (pre ++ [r]) ts' (concat [y; t] 0) (S k)).
    + rewrite <- app_assoc. reflexivity.
    + rewrite length_app. cbn. lia.
    + exact Hts'.
    + unfold bind. rewrite Hacc. unfold lift.
      replace (Z.of_nat k + 1) with (Z.of_nat (S k)) by lia.
      rewrite (py_getitem_nat _ _ r).
      * rewrite (deref_ok _ _ _ Hr). reflexivity.
      * rewrite <- Hpre. apply list_lookup_middle. reflexivity.
Qed.

Lemma concat_out_3d_spec (w : World) (t : Tensor) (ts : list Tensor) :
  Forall2 (refers (objects w)) (out_3d (self w)) (t :: ts) ->
  concat_out_3d w = (Ok (spec_join t ts), w).
Proof.
  intros H. unfold concat_out_3d, bind, get.
  inversion H as [| r ? l ? Hr Hts El]; subst.
  unfold lift at 1. change 0 with (Z.of_nat 0).
  rewrite (py_getitem_nat (r :: l) 0 r eq_refl).
  rewrite (deref_ok _ _ _ Hr).
  cbn [length]. replace (S (length l) - 1)%nat with (length l) by lia.
  apply (concat_loop w (r :: l) l [r] ts t 0%nat); auto.
Qed.

Lemma spec_buffer_cases (n : Z) (l : list nat) (r : nat) :
  1 <= n -> l = [] \/ Z.of_nat (length l) = n ->
  exists pre, spec_buffer n l r = pre ++ [r]
              /\ (forall x, x ∈ pre -> x ∈ l \/ x = r).
Proof.
  intros Hn Hl. unfold spec_buffer.
  destruct (Z.eqb_spec (Z.of_nat (length l)) n) as [E | E].
  - exists (drop 1 l). split; [reflexivity |].
    intros x Hx. left. exact (subseteq_drop 1 l x Hx).
  - destruct Hl as [-> | ?]; [| contradiction]. rewrite app_nil_l.
    replace (Z.to_nat (n - Z.of_nat (length (@nil nat))))
      with (S (Z.to_nat (n - 1))) by (cbn [length]; lia).
    exists (replicate (Z.to_nat (n - 1)) r). split.
    + rewrite replicate_S_end. reflexivity.
    + intros x Hx. right. apply elem_of_replicate in Hx. tauto.
Qed.

(** Reads dimension [i] of the tensor whose dimension is read next, its
    number of dimensions being found by [tac]. *)
Ltac read_dim i tac := rewrite (shape_at_ok _ i) by tac.

Lemma forward_step (inputs : Tensor) (label : option Tensor) (w : World) :
  (5 <= rank inputs)%nat -> 1 <= seg_num (self w) -> buffer_ok w ->
  exists objs' t ts,
    let net := self w in
    let l' := spec_buffer (seg_num net) (out_3d net) (length (objects w)) in
    let out :=
      spec_fuse net (spec_features_2d net inputs)
        (spec_features_3d net (spec_join t ts)) in
    let w' := {| self := self (set_out_3d l' w); objects := objs' |} in
    GoogLeNet_forward inputs label w = (Ok (out, accuracy out <$> label), w')
    /\ value <$> objs' = (value <$> objects w) ++ [snd (spec_stem net inputs)]
    /\ tensors_of objs' l' = t :: ts
    /\ buffer_ok w'
    /\ Z.of_nat (length l') = seg_num net.
Proof.
  intros Hrank Hn [Hlen Hrefs].
  set (net := self w) in *.
  set (b3d := snd (spec_stem net inputs)).
  set (r := length (objects w)).
  set (w1 := {| self := self w;
                objects := objects w ++ [{| value := b3d; stop_gradient := false |}] |}).
  destruct (update_out_3d_spec r w1 Hn) as (objs' & Hupd & Hvals).
  cbn [self objects w1] in Hupd, Hvals. fold net in Hupd.
  set (l' := spec_buffer (seg_num net) (out_3d net) r) in *.
  rewrite fmap_app in Hvals. cbn [fmap list_fmap value] in Hvals.
  assert (Hb3d : rank b3d = 4%nat).
  { unfold b3d, spec_stem, Inception3c_forward. cbn [snd].
    rewrite !rank_Layer_call. unfold spec_frames, rank. rewrite rank_reshape.
    reflexivity. }
  (* every reference of the new buffer is valid *)
  assert (Hvalid : Forall (fun x => exists t, refers objs' x t /\ rank t = 4%nat) l').
  { destruct (spec_buffer_cases (seg_num net) (out_3d net) r Hn Hlen)
      as (pre & Hpre & Hin).
    fold l' in Hpre. rewrite Hpre.
    assert (Hr : exists t, refers objs' r t /\ rank t = 4%nat).
    { exists b3d. split; [| exact Hb3d]. unfold refers. rewrite Hvals.
      apply list_lookup_middle. unfold r. rewrite length_fmap. reflexivity. }
    apply Forall_app. split; [| repeat constructor; exact Hr].
    apply Forall_forall. intros x Hx. destruct (Hin x Hx) as [Hl | ->]; [| exact Hr].
    rewrite Forall_forall in Hrefs. destruct (Hrefs x Hl) as (t & Ht & Hrk).
    exists t. split; [| exact Hrk]. unfold refers. rewrite Hvals.
    apply lookup_app_l_Some. exact Ht. }
  assert (Hlen' : Z.of_nat (length l') = seg_num net).
  { apply spec_buffer_length; [exact Hn |]. destruct Hlen as [E | E]; rewrite E; cbn; lia. }
  assert (Hts : exists t ts, Forall2 (refers objs') l' (t :: ts)
                             /\ rank t = 4%nat).
  { destruct l' as [| x l'']; [cbn in Hlen'; lia |].
    inversion Hvalid as [| ? ? (t & Ht & Hrk) Hrest]; subst.
    assert (exists ts, Forall2 (refers objs') l'' ts) as [ts Hts].
    { clear -Hrest. induction Hrest as [| y l (t & Ht & _) _ [ts IH]].
      - exists []. constructor.
      - exists (t :: ts). constructor; assumption. }
    exists t, ts. split; [constructor; assumption | exact Hrk]. }
  destruct Hts as (t & ts & Hts & Hrk).
  exists objs', t, ts. cbn zeta. fold net r l'.
  split; [| split; [exact Hvals | split; [apply tensors_of_refers; exact Hts | split]]].
  - unfold GoogLeNet_forward, bind.
    rewrite (shape_at_ok inputs 2) by lia.
    rewrite (shape_at_ok inputs 3) by lia.
    rewrite (shape_at_ok inputs 4) by lia.
    unfold get, new_tensor.
    change (Inception3c_forward Layer_call (before3d (self w))
              (Layer_call (googLeNet_part1 (self w))
                 (reshape inputs [-1; dim inputs 2; dim inputs 3; dim inputs 4])))
      with (spec_stem net inputs).
    rewrite (surjective_pairing (spec_stem net inputs)).
    fold b3d r w1. rewrite Hupd.
    rewrite (concat_out_3d_spec _ t ts) by exact Hts.
    assert (Hj : rank (spec_join t ts) = 4%nat) by (rewrite rank_spec_join; exact Hrk).
    read_dim 1%nat lia. read_dim 2%nat lia. read_dim 3%nat lia.
    read_dim 0%nat ltac:(rewrite rank_reshape; cbn; lia).
    read_dim 2%nat ltac:(rewrite rank_reshape; cbn; lia).
    read_dim 1%nat ltac:(rewrite rank_reshape; cbn; lia).
    read_dim 3%nat ltac:(rewrite rank_reshape; cbn; lia).
    read_dim 4%nat ltac:(rewrite rank_reshape; cbn; lia).
    read_dim 1%nat ltac:(apply (rank_ResNet3D (res3d net))).
    read_dim 1%nat ltac:(rewrite rank_dropout, rank_reshape; cbn; lia).
    read_dim 1%nat
      ltac:(rewrite rank_dropout, !rank_Layer_call;
            unfold spec_stem, Inception3c_forward; cbn [fst];
            rewrite rank_concat, rank_Layer_call, rank_Layer_call;
            unfold spec_frames; rewrite rank_reshape; cbn; lia).
    read_dim 1%nat ltac:(rewrite rank_reshape; cbn; lia).
    destruct label; reflexivity.
  - split; [right; exact Hlen' | exact Hvalid].
  - exact Hlen'.
Qed.

(** Reading a dimension a tensor does not have. *)
Lemma shape_at_fail (t : Tensor) (i : nat) (w : World) :
  (rank t <= i)%nat ->
  shape_at t (Z.of_nat i) w = (Raise (IndexError "list index out of range"), w).
Proof.
  intros H. unfold shape_at, lift, py_getitem, py_index.
  destruct (Z.ltb_spec (Z.of_nat i) (Z.of_nat (rank t))); [lia |].
  rewrite andb_false_r.
  destruct (Z.ltb_spec (Z.of_nat i) 0); [lia |].
  rewrite andb_false_r. reflexivity.
Qed.

(** Line 543 on an input of fewer than five dimensions. *)
Lemma forward_low_rank (inputs : Tensor) (label : option Tensor) (w : World) :
  (rank inputs < 5)%nat ->
  GoogLeNet_forward inputs label w
  = (Raise (IndexError "list index out of range"), w).
Proof.
  intros H. unfold GoogLeNet_forward.
  destruct (le_lt_dec (rank inputs) 2) as [H2 | H2].
  { unfold bind at 1. rewrite (shape_at_fail inputs 2) by lia. reflexivity. }
  unfold bind at 1. rewrite (shape_at_ok inputs 2) by lia.
  destruct (le_lt_dec (rank inputs) 3) as [H3 | H3].
  { unfold bind at 1. rewrite (shape_at_fail inputs 3) by lia. reflexivity. }
  unfold bind at 1. rewrite (shape_at_ok inputs 3) by lia.
  unfold bind at 1. rewrite (shape_at_fail inputs 4) by lia. reflexivity.
Qed.

(** Calls that all return were made on videos of at least five
    dimensions. *)
Lemma calls_ranks (xs : list Tensor) :
  forall w outs w',
    GoogLeNet_calls xs w = (Ok outs, w') ->
    Forall (fun x => (5 <= rank x)%nat) xs.
Proof.
  induction xs as [| x xs IH]; intros w outs w' H; [constructor |].
  cbn [GoogLeNet_calls] in H. unfold bind at 1 in H.
  destruct (le_lt_dec 5 (rank x)) as [Hr | Hr].
  - constructor; [exact Hr |].
    destruct (GoogLeNet_forward x None w) as [[o | e] w1]; [| discriminate].
    unfold bind at 1 in H.
    destruct (GoogLeNet_calls xs w1) as [[os | e] w2] eqn:E; [| discriminate].
    exact (IH w1 os w2 E).
  - rewrite (forward_low_rank x None w Hr) in H. discriminate.
Qed.

(** C7: on a video of at least five dimensions, a network of at least one
    segment and a well-formed buffer, [forward] returns; its output is the
    softmax of the last [Linear] layer applied to the concatenation along
    axis 1 of the 2D GoogLeNet features averaged over the segments and the
    3D ResNet features (of the joined buffer) averaged over the segments.
    Without a label that output is what is returned; with a label it comes
    with the accuracy. *)
Theorem forward_fuses_streams (inputs : Tensor) (label : option Tensor) (w : World) :
  (5 <= rank inputs)%nat -> 1 <= seg_num (self w) -> buffer_ok w ->
  let net := self w in
  exists w' t ts,
    tensors_of (objects w') (out_3d (self w')) = t :: ts
    /\ let f2d := spec_features_2d net inputs in
       let f3d := spec_features_3d net (spec_join t ts) in
       let fused :=
         concat [mean (reshape f2d [-1; seg_num net; dim f2d 1]) 1;
                 mean (reshape f3d [-1; seg_num net; dim f3d 1]) 1] 1 in
       let out_final := softmax (Linear_call (out net) fused) in
       GoogLeNet_forward inputs label w
       = (Ok (out_final, accuracy out_final <$> label), w')
       /\ (label = None ->
           GoogLeNet_forward inputs label w = (Ok (out_final, None), w')).
Proof.
  intros Hrank Hn Hok net.
  destruct (forward_step inputs label w Hrank Hn Hok)
    as (objs' & t & ts & Hfwd & _ & Hts & _ & _).
  cbn zeta in Hfwd. fold net in Hfwd, Hts.
  exists {| self := self (set_out_3d (spec_buffer (seg_num net) (out_3d net)
                                        (length (objects w))) w);
            objects := objs' |}, t, ts.
  split; [exact Hts |]. cbn zeta.
  split; [exact Hfwd |].
  intros ->. exact Hfwd.
Qed.

(** The buffer of a new network is empty. *)
Lemma init_out_3d class_dim sn sl modality weight_devay n net n' :
  GoogLeNet_init class_dim sn sl modality weight_devay n = (Ok net, n') ->
  out_3d net = [] /\ seg_num net = sn.
Proof.
  unfold GoogLeNet_init, Inception_init, Inception3c_init, Inception4e_init,
    Inception5a_init, Inception5b_init, ConvBNLayer_init, bind, fresh, ret.
  cbv beta iota.
  destruct (ResNet3D_init "resnet" "RGB" 96 _) as [[r | e] m]; [| discriminate].
  intros [= <- _]. split; reflexivity.
Qed.

Lemma calls_invariant (xs : list Tensor) :
  forall w,
    Forall (fun x => (5 <= rank x)%nat) xs -> 1 <= seg_num (self w) -> buffer_ok w ->
    exists outs w',
      GoogLeNet_calls xs w = (Ok outs, w')
      /\ length outs = length xs
      /\ seg_num (self w') = seg_num (self w)
      /\ buffer_ok w'
      /\ (xs <> [] -> Z.of_nat (length (out_3d (self w'))) = seg_num (self w)).
Proof.
  induction xs as [| x xs IH]; intros w Hxs Hn Hok.
  - exists [], w. cbn.
    split; [reflexivity |]. split; [reflexivity |]. split; [reflexivity |].
    split; [exact Hok |]. intros H. contradiction.
  - inversion Hxs as [| ? ? Hx Hxs']; subst.
    destruct (forward_step x None w Hx Hn Hok)
      as (objs' & t & ts & Hfwd & _ & _ & Hok' & Hlen').
    cbn zeta in Hfwd, Hok', Hlen'.
    set (w1 := {| self := _; objects := objs' |}) in *.
    assert (Hn1 : 1 <= seg_num (self w1)) by exact Hn.
    destruct (IH w1 Hxs' Hn1 Hok') as (outs & w' & Hcalls & Hlen & Hseg & Hok'' & Hfull).
    eexists _, w'. cbn [GoogLeNet_calls]. unfold bind at 1. rewrite Hfwd.
    unfold bind. rewrite Hcalls. split; [reflexivity |].
    split; [cbn; rewrite Hlen; reflexivity |].
    split; [exact Hseg |]. split; [exact Hok'' |].
    intros _. destruct xs as [| x' xs'].
    + cbn in Hcalls. injection Hcalls as <- <-. exact Hlen'.
    + apply Hfull. discriminate.
Qed.
End Facts.

Section Blocks.
Context {P : PaddleNN}.

(** C5: [Inception.forward] applies each of the four branches to its
    input and returns the concatenation of the four results along axis 1;
    the branches [__init__] builds are a 1x1 convolution; a 1x1 then a 3x3
    convolution; a 1x1 then two 3x3 convolutions; an average pooling then
    a 1x1 convolution. *)
Theorem inception_forward :
  (forall b1 b2 b3 b4 inputs,
      Layer_call (Inception b1 b2 b3 b4) inputs
      = concat [Layer_call b1 inputs; Layer_call b2 inputs;
                Layer_call b3 inputs; Layer_call b4 inputs] 1)
  /\ (forall num_channels ch1x1 ch3x3reduced ch3x3 doublech3x3reduced
             doublech3x3_1 doublech3x3_2 pool_proj n,
         exists b1 b2a b2b b3a b3b b3c b4b n',
           Inception_init num_channels ch1x1 ch3x3reduced ch3x3
             doublech3x3reduced doublech3x3_1 doublech3x3_2 pool_proj n
           = (Ok (Inception b1 (Sequential [b2a; b2b])
                    (Sequential [b3a; b3b; b3c])
                    (Sequential [AvgPool2D 3 1 1; b4b])), n')
           /\ is_conv 1 b1
           /\ is_conv 1 b2a /\ is_conv 3 b2b
           /\ is_conv 1 b3a /\ is_conv 3 b3b /\ is_conv 3 b3c
           /\ is_conv 1 b4b
           /\ forall inputs,
               Layer_call (Inception b1 (Sequential [b2a; b2b])
                             (Sequential [b3a; b3b; b3c])
                             (Sequential [AvgPool2D 3 1 1; b4b])) inputs
               = concat [Layer_call b1 inputs;
                         Layer_call b2b (Layer_call b2a inputs);
                         Layer_call b3c (Layer_call b3b (Layer_call b3a inputs));
                         Layer_call b4b (AvgPool2D_call 3 1 1 inputs)] 1).
Proof.
  split; [reflexivity |].
  intros. unfold Inception_init, ConvBNLayer_init, bind, fresh, ret. cbv beta iota.
  do 8 eexists. split; [reflexivity |].
  repeat (split; [eexists _, _; split; reflexivity |]).
  reflexivity.
Qed.

(** C6, amended: [Inception], [Inception4e], [Inception5a] and
    [Inception5b] apply each of their branches to the input of the block
    and concatenate all the results along axis 1.  [Inception3c] applies
    its first, second and fourth branch to the input and its third branch
    to the result of the second; it concatenates the results of the first,
    third and fourth branch along axis 1 and returns the result of the
    second branch beside that. *)
Theorem inception_blocks :
  (forall b1 b2 b3 b4 inputs,
      Layer_call (Inception b1 b2 b3 b4) inputs
      = concat [Layer_call b1 inputs; Layer_call b2 inputs;
                Layer_call b3 inputs; Layer_call b4 inputs] 1)
  /\ (forall b1 b2 b3 inputs,
         Layer_call (Inception4e b1 b2 b3) inputs
         = concat [Layer_call b1 inputs; Layer_call b2 inputs;
                   Layer_call b3 inputs] 1)
  /\ (forall b1 b2 b3 b4 inputs,
         Layer_call (Inception5a b1 b2 b3 b4) inputs
         = concat [Layer_call b1 inputs; Layer_call b2 inputs;
                   Layer_call b3 inputs; Layer_call b4 inputs] 1)
  /\ (forall b1 b2 b3 b4 inputs,
         Layer_call (Inception5b b1 b2 b3 b4) inputs
         = concat [Layer_call b1 inputs; Layer_call b2 inputs;
                   Layer_call b3 inputs; Layer_call b4 inputs] 1)
  /\ (forall (self : Inception3c) inputs,
         Inception3c_forward Layer_call self inputs
         = (concat [Layer_call (branch1 self) inputs;
                    Layer_call (branch3 self) (Layer_call (branch2 self) inputs);
                    Layer_call (branch4 self) inputs] 1,
            Layer_call (branch2 self) inputs)).
Proof. repeat split. Qed.
End Blocks.

Section Buffer.
Context {P : PaddleNN} {L : PaddleRankLaws P}.

Lemma buffer_invariant :
  (forall class_dim sn sl modality weight_devay n net n',
      GoogLeNet_init class_dim sn sl modality weight_devay n = (Ok net, n') ->
      out_3d net = [] /\ seg_num net = sn)
  /\ (forall inputs label w out w',
         1 <= seg_num (self w) -> buffer_ok w ->
         GoogLeNet_forward inputs label w = (Ok out, w') ->
         out_3d (self w')
         = spec_buffer (seg_num (self w)) (out_3d (self w)) (length (objects w))
         /\ refers (objects w') (length (objects w)) (snd (spec_stem (self w) inputs))
         /\ seg_num (self w') = seg_num (self w)
         /\ Z.of_nat (length (out_3d (self w'))) = seg_num (self w)
         /\ buffer_ok w')
  /\ (forall r sn, 1 <= sn -> spec_buffer sn [] r = replicate (Z.to_nat sn) r)
  /\ (forall r sn a l,
         Z.of_nat (length (a :: l)) = sn -> spec_buffer sn (a :: l) r = l ++ [r])
  /\ (forall xs w outs w',
         xs <> [] -> 1 <= seg_num (self w) -> out_3d (self w) = [] ->
         GoogLeNet_calls xs w = (Ok outs, w') ->
         length outs = length xs
         /\ Z.of_nat (length (out_3d (self w'))) = seg_num (self w))
  /\ (forall inputs label w,
         (rank inputs < 5)%nat ->
         GoogLeNet_forward inputs label w
         = (Raise (IndexError "list index out of range"), w)).
Proof.
  split; [exact init_out_3d |]. split; [| split; [| split; [| split]]].
  - intros inputs label w out w' Hn Hok Hret.
    assert (Hrank : (5 <= rank inputs)%nat).
    { destruct (le_lt_dec 5 (rank inputs)) as [H | H]; [exact H |].
      rewrite (forward_low_rank inputs label w H) in Hret. discriminate. }
    destruct (forward_step inputs label w Hrank Hn Hok)
      as (objs' & t & ts & Hfwd & Hvals & _ & Hok' & Hlen').
    cbn zeta in *. rewrite Hfwd in Hret. injection Hret as _ <-.
    cbn [self objects set_out_3d out_3d].
    split; [reflexivity |]. split; [| split; [reflexivity | split; [exact Hlen' | exact Hok']]].
    unfold refers. rewrite Hvals. apply list_lookup_middle.
    rewrite length_fmap. reflexivity.
  - intros r sn Hsn. unfold spec_buffer. cbn [length].
    destruct (Z.eqb_spec (Z.of_nat 0) sn) as [E | _]; [lia |].
    rewrite app_nil_l. f_equal. lia.
  - intros r sn a l Hlen. unfold spec_buffer.
    destruct (Z.eqb_spec (Z.of_nat (length (a :: l))) sn); [reflexivity | contradiction].
  - intros xs w outs w' Hne Hn Hempty Hret.
    assert (Hok : buffer_ok w).
    { split; [left; exact Hempty | rewrite Hempty; constructor]. }
    destruct (calls_invariant xs w (calls_ranks xs w outs w' Hret) Hn Hok)
      as (outs2 & w2 & Hcalls & Hlen & _ & _ & Hfull).
    rewrite Hcalls in Hret. injection Hret as <- <-.
    split; [exact Hlen | exact (Hfull Hne)].
  - exact forward_low_rank.
Qed.
End Buffer.

End ECOFacts.

(** ** The network over the free framework *)

Module ECORuns.
Import ECO ECOFacts Free Examples.

#[export] Instance FreePaddle_laws : PaddleRankLaws FreePaddle.
Proof.
  assert (Hw : forall s k st p, length (windowed s k st p) = length s).
  { intros [| a [| b [| c [| d [| e s]]]]] k st p; reflexivity. }
  split; intros; cbn; unfold set_dim;
    rewrite ?length_insert, ?Hw, ?length_map; try reflexivity.
  unfold infer_reshape. apply length_map.
Qed.

(** C7 at the first call of a new network of two segments. *)
Lemma forward_fuses_streams_witness :
  exists w f2d f3d w',
    new_world 101 2 1 "RGB" = Some w
    /\ GoogLeNet_forward (video "x") None w
       = (Ok (softmax (Linear_call (out (self w))
                         (concat [mean (reshape f2d [-1; 2; dim f2d 1]) 1;
                                  mean (reshape f3d [-1; 2; dim f3d 1]) 1] 1)),
              None), w').
Proof.
  eexists. 
  match goal with
  | |- exists f2d f3d w', ?nw = Some ?w /\ _ =>
    let v := eval vm_compute in nw in
    match v with
    | Some ?w0 =>
      unify w w0;
      destruct (forward_fuses_streams (P := FreePaddle) (video "x") None w0)
        as (w' & t & ts & _ & _ & H)
    end
  end.
  - cbn. lia.
  - cbn. lia.
  - split; [left; reflexivity | constructor].
  - eexists _, _, w'. split; [vm_compute; reflexivity |].
    exact (H eq_refl).
Defined.

(** Against C6: the result of [Inception3c(320, 128, 160, 64, 96, 96)] is
    not the concatenation of its four branches applied to the input: it
    has three operands, the second one is the third branch applied to the
    result of the second branch, and that result is returned beside. *)
Lemma inception3c_not_parallel :
  exists blk,
    block_3c = Some blk
    /\ fst (Inception3c_forward Layer_call blk (Leaf "x" [2; 320; 28; 28]))
       <> concat [Layer_call (branch1 blk) (Leaf "x" [2; 320; 28; 28]);
                  Layer_call (branch2 blk) (Leaf "x" [2; 320; 28; 28]);
                  Layer_call (branch3 blk) (Leaf "x" [2; 320; 28; 28]);
                  Layer_call (branch4 blk) (Leaf "x" [2; 320; 28; 28])] 1
    /\ arity (fst (Inception3c_forward Layer_call blk (Leaf "x" [2; 320; 28; 28])))
       = 3%nat
    /\ root (follow [1%nat] (fst (Inception3c_forward Layer_call blk
                                     (Leaf "x" [2; 320; 28; 28]))))
       = "x"
    /\ follow [1; 0; 0; 0; 0]%nat (fst (Inception3c_forward Layer_call blk
                                     (Leaf "x" [2; 320; 28; 28])))
       = snd (Inception3c_forward Layer_call blk (Leaf "x" [2; 320; 28; 28])).
Proof.
  eexists. split; [vm_compute; reflexivity |].
  split; [| split; [| split]]; try (vm_compute; reflexivity).
  intros H. apply (f_equal arity) in H. vm_compute in H. discriminate.
Qed.

(** Two histories that end with the same video give different outputs:
    the first entry of the joined buffer comes from the video [x] in one
    and from the video [a] in the other. *)
Lemma output_depends_on_earlier_calls :
  buffer_source (last_output [video "x"]) = Some "x"
  /\ buffer_source (last_output [video "a"; video "x"]) = Some "a"
  /\ last_output [video "x"] <> last_output [video "a"; video "x"].
Proof.
  split; [vm_compute; reflexivity |]. split; [vm_compute; reflexivity |].
  intros H. apply (f_equal buffer_source) in H. vm_compute in H. discriminate.
Qed.

(** Against C10: not every call leaves [seg_num] entries in the buffer.
    On the batch of images of the docstring of the class, a tensor of four
    dimensions, the call of a new network of two segments raises
    [IndexError] in its first line, and the buffer is still empty after
    it. *)
Lemma call_on_images_leaves_buffer_empty :
  exists w,
    new_world 101 2 1 "RGB" = Some w
    /\ seg_num (self w) = 2
    /\ out_3d (self w) = []
    /\ GoogLeNet_forward images None w
       = (Raise (IndexError "list index out of range"), w)
    /\ Z.of_nat (length (out_3d (self w))) <> seg_num (self w).
Proof.
  eexists.
  match goal with
  | |- ?nw = Some ?w /\ _ =>
    let v := eval vm_compute in nw in
    match v with
    | Some ?w0 => unify w w0
    end
  end.
  split; [vm_compute; reflexivity |].
  split; [vm_compute; reflexivity |]. split; [vm_compute; reflexivity |].
  split; [apply forward_low_rank; cbn; lia | vm_compute; discriminate].
Qed.

(** C10, amended: [forward] keeps state in [self.out_3d].  Over any
    framework: a new network has an empty buffer; after a call on a
    well-formed buffer that returns, the buffer is the one the
    specification describes, holding a new object for the current
    features: an empty buffer is filled with [seg_num] references to it, a
    full one is shifted left by one position and gets it at the end; so
    after a non-empty sequence of calls that all return, on a new network
    of at least one segment, the buffer holds exactly [seg_num] entries.
    A call on an input of fewer than five dimensions does not return: it
    raises [IndexError] and leaves the network, and so the buffer, as it
    was.  And the output depends on earlier calls: over the free
    framework, a network of two segments answers the video [x] differently
    when it has seen the video [a] before. *)
Theorem out_3d_buffer :
  (forall (P : PaddleNN) (L : PaddleRankLaws P),
    (forall class_dim sn sl modality weight_devay n net n',
        GoogLeNet_init class_dim sn sl modality weight_devay n = (Ok net, n') ->
        out_3d net = [] /\ seg_num net = sn)
    /\ (forall inputs label w out w',
           1 <= seg_num (self w) -> buffer_ok w ->
           GoogLeNet_forward inputs label w = (Ok out, w') ->
           out_3d (self w')
           = spec_buffer (seg_num (self w)) (out_3d (self w)) (length (objects w))
           /\ refers (objects w') (length (objects w)) (snd (spec_stem (self w) inputs))
           /\ seg_num (self w') = seg_num (self w)
           /\ Z.of_nat (length (out_3d (self w'))) = seg_num (self w)
           /\ buffer_ok w')
    /\ (forall r sn, 1 <= sn -> spec_buffer sn [] r = replicate (Z.to_nat sn) r)
    /\ (forall r sn a l,
           Z.of_nat (length (a :: l)) = sn -> spec_buffer sn (a :: l) r = l ++ [r])
    /\ (forall xs w outs w',
           xs <> [] -> 1 <= seg_num (self w) -> out_3d (self w) = [] ->
           GoogLeNet_calls xs w = (Ok outs, w') ->
           length outs = length xs
           /\ Z.of_nat (length (out_3d (self w'))) = seg_num (self w))
    /\ (forall inputs label w,
           (rank inputs < 5)%nat ->
           GoogLeNet_forward inputs label w
           = (Raise (IndexError "list index out of range"), w)))
  /\ (buffer_source (last_output [video "x"]) = Some "x"
      /\ buffer_source (last_output [video "a"; video "x"]) = Some "a"
      /\ last_output [video "x"] <> last_output [video "a"; video "x"]).
Proof.
  split; [intros P L; exact buffer_invariant | exact output_depends_on_earlier_calls].
Qed.

(** C10 at two calls of a new network of two segments, which return. *)
Lemma out_3d_buffer_witness :
  exists w outs w',
    new_world 101 2 1 "RGB" = Some w
    /\ GoogLeNet_calls [video "a"; video "x"] w = (Ok outs, w')
    /\ length outs = 2%nat
    /\ Z.of_nat (length (out_3d (self w'))) = 2.
Proof.
  eexists.
  match goal with
  | |- exists outs w', ?nw = Some ?w /\ _ =>
    let v := eval vm_compute in nw in
    match v with
    | Some ?w0 =>
      unify w w0;
      destruct (calls_invariant (P := FreePaddle) [video "a"; video "x"] w0)
        as (outs & w' & Hc & _);
      [repeat constructor; cbn; lia | cbn; lia
      | split; [left; reflexivity | constructor] |];
      destruct (proj1 out_3d_buffer FreePaddle FreePaddle_laws) as (_ & _ & _ & _ & H & _);
      destruct (H [video "a"; video "x"] w0 outs w') as (Hl & Hb)
    end
  end.
  - discriminate.
  - cbn. lia.
  - reflexivity.
  - exact Hc.
  - exists outs, w'. split; [vm_compute; reflexivity |].
    split; [exact Hc |]. split; [exact Hl | exact Hb].
Defined.

End ECORuns.

(** ** More about the Eidetic LSTM cell: what a call returns and when *)

Module E3DMore.
Import E3D E3DFacts.

Section Facts.
Context {F : FluidLayers}.


(** The whole result of a call that passes every check. *)
Lemma call_result (self : EideticLSTMCell) inputs hidden cell gm e n a :
  _layer_norm self = true ->
  _conv_ndims self = 2 \/ _conv_ndims self = 3 ->
  _attn self (spec_r_t self inputs hidden n) e e = Ok a ->
  EideticLSTMCell_call self inputs hidden cell gm e n
  = (Ok (spec_output self inputs hidden (spec_new_cell self inputs hidden cell a n)
           (spec_new_global_memory self inputs gm n) n,
         spec_new_cell self inputs hidden cell a n,
         spec_new_global_memory self inputs gm n), (10 + n)%nat).
Proof.
  intros Hln Hnd Ha.
  unfold EideticLSTMCell_call, bind, _norm, split4, split7, load, as_tensor,
    fresh, ret, lift, raise.
  rewrite Hln.
  run_convs conv_tensor self Hnd.
  change (sigmoid (add (split_section (layer_norm (S (S (S n)))
                          (spec_conv self (S (S n)) inputs (7 * _output_channels self)
                             (_kernel_shape self))) 7 (-1) 2)
                       (split_section (layer_norm (S n)
                          (spec_conv self n hidden (4 * _output_channels self)
                             (_kernel_shape self))) 4 (-1) 2)))
    with (spec_r_t self inputs hidden n).
  rewrite Ha. cbn.
  run_convs conv_tensor self Hnd.
  reflexivity.
Qed.

(** What a call does, by the configuration of the cell and the outcome of
    the checks of [_attn]. *)
Lemma call_outcome (self : EideticLSTMCell) inputs hidden cell gm e n :
  match EideticLSTMCell_call self inputs hidden cell gm e n with
  | (Ok (o, c', m), k) =>
      _layer_norm self = true
      /\ (_conv_ndims self = 2 \/ _conv_ndims self = 3)
      /\ (exists b w h c,
             _attn_checks (shape (spec_r_t self inputs hidden n)) (shape e) (shape e)
             = Ok (b, w, h, c))
      /\ m = spec_new_global_memory self inputs gm n
      /\ o = spec_output self inputs hidden c' m n
      /\ k = (10 + n)%nat
  | (Raise err, _) =>
      (_conv_ndims self <> 2 /\ _conv_ndims self <> 3
       /\ err = NoneTypeError (if _layer_norm self then "layer_norm" else "split"))
      \/ ((_conv_ndims self = 2 \/ _conv_ndims self = 3)
          /\ _layer_norm self = false /\ err = UnboundLocalError "i_x")
      \/ ((_conv_ndims self = 2 \/ _conv_ndims self = 3)
          /\ _layer_norm self = true
          /\ _attn_checks (shape (spec_r_t self inputs hidden n)) (shape e) (shape e)
             = Raise err)
  end.
Proof.
  destruct (conv_ndims_cases self) as [Hnd | [H2 H3]].
  - destruct (_layer_norm self) eqn:Hln.
    + destruct (_attn_checks (shape (spec_r_t self inputs hidden n)) (shape e) (shape e))
        as [[[[b w] h] c] | err] eqn:Hc.
      * rewrite (call_result self inputs hidden cell gm e n _ Hln Hnd
                   (attn_ok self _ _ _ _ _ _ _ Hc)).
        repeat split; eauto 10.
      * pose proof (call_with_layer_norm self inputs hidden cell gm e n Hln Hnd) as H.
        rewrite (attn_raise self _ _ _ _ Hc) in H. rewrite H. auto.
    + rewrite call_without_layer_norm by assumption. auto.
  - rewrite call_conv_none by assumption. auto.
Qed.

(** X2: a call of the cell returns only if the cell has layer
    normalisation, its convolutions are two- or three-dimensional, the
    recall gate [r_t] has four or five dimensions and the memory bank
    [eidetic_cell] has five, the last three of them being the width, height
    and channels of [r_t]. *)
Theorem call_returns_only_if (self : EideticLSTMCell) inputs hidden cell gm e n r k :
  EideticLSTMCell_call self inputs hidden cell gm e n = (Ok r, k) ->
  _layer_norm self = true
  /\ (_conv_ndims self = 2 \/ _conv_ndims self = 3)
  /\ exists b w h c,
      (shape (spec_r_t self inputs hidden n) = [b; w; h; c]
       \/ exists l, shape (spec_r_t self inputs hidden n) = [b; l; w; h; c])
      /\ exists eb el, shape e = [eb; el; w; h; c].
Proof.
  intros Hr.
  pose proof (call_outcome self inputs hidden cell gm e n) as H.
  rewrite Hr in H. destruct r as [[o c'] m].
  destruct H as (Hln & Hnd & (b & w & h & c & Hc) & _).
  split; [exact Hln |]. split; [exact Hnd |].
  exists b, w, h, c.
  destruct (attn_checks_inv _ _ _ _ _ _ _ Hc) as (Hq & Hk & _). auto.
Qed.

(** X3: the global memory a call returns is
    [sigmoid(temp_f_x + f_m + forget_bias) * tanh(m_m)
     + sigmoid(temp_i_x + i_m) * tanh(temp_g_x + g_m)], the gates being
    sections of the normalised convolutions of [inputs] and of
    [global_memory]; it does not depend on the hidden state, the cell state
    or the memory bank the cell is called with. *)
Theorem global_memory_update (self : EideticLSTMCell) inputs gm n
    hidden cell e out c m k hidden' cell' e' out' c' m' k' :
  EideticLSTMCell_call self inputs hidden cell gm e n = (Ok (out, c, m), k) ->
  EideticLSTMCell_call self inputs hidden' cell' gm e' n = (Ok (out', c', m'), k') ->
  m = spec_new_global_memory self inputs gm n /\ m' = m.
Proof.
  intros H H'.
  pose proof (call_outcome self inputs hidden cell gm e n) as Ho. rewrite H in Ho.
  pose proof (call_outcome self inputs hidden' cell' gm e' n) as Ho'. rewrite H' in Ho'.
  destruct Ho as (_ & _ & _ & -> & _). destruct Ho' as (_ & _ & _ & -> & _).
  split; reflexivity.
Qed.

(** X4: the output a call returns is
    [tanh(conv1(concat([new_cell, new_global_memory], -1)))
     * sigmoid(tanh(o_x + o_h + conv(new_cell) + conv(new_global_memory)))]
    for the two memories the call returns beside it: the output gate goes
    through [tanh] before [sigmoid], and the cell state, the global memory
    and the memory bank reach the output only through the new memories. *)
Theorem hidden_output (self : EideticLSTMCell) inputs hidden cell gm e n out c m k :
  EideticLSTMCell_call self inputs hidden cell gm e n = (Ok (out, c, m), k) ->
  out = spec_output self inputs hidden c m n.
Proof.
  intros H.
  pose proof (call_outcome self inputs hidden cell gm e n) as Ho. rewrite H in Ho.
  destruct Ho as (_ & _ & _ & _ & -> & _). reflexivity.
Qed.

(** X5: a call reads only [_conv_ndims], [_output_channels],
    [_kernel_shape], [_layer_norm] and [_forget_bias] of the cell: two cells
    that agree on them give the same result, whatever their [norm_gain],
    [norm_shift], [input_shape] and [name]. *)
Theorem call_ignores_unused_attributes (self self' : EideticLSTMCell)
    inputs hidden cell gm e n :
  _conv_ndims self = _conv_ndims self' ->
  _output_channels self = _output_channels self' ->
  _kernel_shape self = _kernel_shape self' ->
  _layer_norm self = _layer_norm self' ->
  _forget_bias self = _forget_bias self' ->
  EideticLSTMCell_call self inputs hidden cell gm e n
  = EideticLSTMCell_call self' inputs hidden cell gm e n.
Proof.
  destruct self, self'. cbn. intros -> -> -> -> ->. reflexivity.
Qed.

(** X6: [Eidetic2DLSTMCell] is constructed exactly for an [input_shape] of
    three entries and [Eidetic3DLSTMCell] exactly for one of four; a cell
    either of them constructs has [conv_ndims] 2 or 3, so that its [_conv]
    gives the result of the framework's convolution and never [None], a
    call of it never fails on [None], and a call of it returns only with
    [layer_norm=True]. *)
Theorem subclass_cells (self : EideticLSTMCell) name input_shape oc ks ln g sh fb :
  ((exists c, Eidetic2DLSTMCell_init name input_shape oc ks ln g sh fb = Ok c)
   <-> length input_shape = 3%nat)
  /\ ((exists c, Eidetic3DLSTMCell_init name input_shape oc ks ln g sh fb = Ok c)
      <-> length input_shape = 4%nat)
  /\ (Eidetic2DLSTMCell_init name input_shape oc ks ln g sh fb = Ok self
      \/ Eidetic3DLSTMCell_init name input_shape oc ks ln g sh fb = Ok self ->
      (_conv_ndims self = 2 \/ _conv_ndims self = 3)
      /\ (forall x c k p,
             _conv self (PyTensor x) c k p
             = (Ok (PyTensor (spec_conv self p x c k)), S p))
      /\ forall inputs hidden cell gm e n,
          (forall op, fst (EideticLSTMCell_call self inputs hidden cell gm e n)
                      <> Raise (NoneTypeError op))
          /\ (forall r, fst (EideticLSTMCell_call self inputs hidden cell gm e n) = Ok r ->
                        ln = true)).
Proof.
  unfold Eidetic2DLSTMCell_init, Eidetic3DLSTMCell_init, EideticLSTMCell_init.
  split; [| split].
  - destruct (Z.eqb_spec 2 (Z.of_nat (length input_shape) - 1)); cbn;
      (split; [intros [c Hc]; try discriminate; lia | intros; try lia; eauto]).
  - destruct (Z.eqb_spec 3 (Z.of_nat (length input_shape) - 1)); cbn;
      (split; [intros [c Hc]; try discriminate; lia | intros; try lia; eauto]).
  - intros Hinit.
    assert (Hself : (_conv_ndims self = 2 \/ _conv_ndims self = 3) /\ _layer_norm self = ln).
    { destruct Hinit as [H | H];
        [destruct (2 =? Z.of_nat (length input_shape) - 1)
        | destruct (3 =? Z.of_nat (length input_shape) - 1)];
        cbn in H; try discriminate; injection H as <-; cbn; auto. }
    destruct Hself as (Hnd & Hln).
    split; [exact Hnd |]. split; [intros x c k p; exact (conv_tensor self x c k p Hnd) |].
    intros inputs hidden cell gm e n.
    pose proof (call_outcome self inputs hidden cell gm e n) as H.
    destruct (EideticLSTMCell_call self inputs hidden cell gm e n) as [[r | err] k]; cbn.
    + split; [discriminate |]. intros r0 _.
      destruct r as [[? ?] ?]. destruct H as (H & _). congruence.
    + split; [| discriminate]. intros op [= ->].
      destruct H as [(H2 & H3 & _) | [(_ & _ & [=]) | (_ & _ & Hc)]].
      * lia.
      * destruct (attn_checks_value_error _ _ _ _ Hc) as (msg & args & [=]).
Qed.

(** X7: on a cell [__init__] has constructed, each of the nine attributes
    it assigns reads back the argument it was given, and the properties
    [output_size] and [state_size] fail: the attributes [_output_size] and
    [_state_size] they read are never assigned. *)
Theorem attributes_read_back conv_ndims input_shape oc ks ln g sh fb name self :
  EideticLSTMCell_init conv_ndims input_shape oc ks ln g sh fb name = Ok self ->
  getattr self "_conv_ndims" = Some (AInt conv_ndims)
  /\ getattr self "_input_shape" = Some (AShape input_shape)
  /\ getattr self "_output_channels" = Some (AInt oc)
  /\ getattr self "_kernel_shape" = Some (AKernel ks)
  /\ getattr self "_layer_norm" = Some (ABool ln)
  /\ getattr self "_norm_gain" = Some (AFloat g)
  /\ getattr self "_norm_shift" = Some (AFloat sh)
  /\ getattr self "_forget_bias" = Some (AFloat fb)
  /\ getattr self "_layer_name" = Some (AStr name)
  /\ output_size self = None
  /\ state_size self = None.
Proof.
  unfold EideticLSTMCell_init.
  destruct (negb (conv_ndims =? Z.of_nat (length input_shape) - 1)); [discriminate |].
  intros [= <-]. repeat split.
Qed.

End Facts.

Section Gate.
Context {F : FluidLayers} {G : FluidGateLaws F}.

(** The recall gate of a three-dimensional cell has the batch and the
    spatial dimensions of the input and [output_channels] channels. *)
Lemma shape_r_t (self : EideticLSTMCell) inputs hidden n b d h w ci ch :
  _conv_ndims self = 3 ->
  shape inputs = [b; d; h; w; ci] -> shape hidden = [b; d; h; w; ch] ->
  shape (spec_r_t self inputs hidden n) = [b; d; h; w; _output_channels self].
Proof.
  intros Hnd Hx Hh. unfold spec_r_t, spec_pre_x, spec_pre_h, spec_conv.
  rewrite Hnd. cbn [Z.eqb Pos.eqb].
  assert (Hrx : shape (split_section
                         (layer_norm (3 + n)
                            (conv3d (2 + n) inputs (7 * _output_channels self)
                               (_kernel_shape self) "same" "NDHWC")) 7 (-1) 2)
                = [b; d; h; w] ++ [_output_channels self]).
  { apply shape_split_section; [lia |].
    rewrite shape_layer_norm. apply (shape_conv3d _ _ _ _ _ _ _ _ _ Hx). }
  assert (Hrh : shape (split_section
                         (layer_norm (1 + n)
                            (conv3d n hidden (4 * _output_channels self)
                               (_kernel_shape self) "same" "NDHWC")) 4 (-1) 2)
                = [b; d; h; w] ++ [_output_channels self]).
  { apply shape_split_section; [lia |].
    rewrite shape_layer_norm. apply (shape_conv3d _ _ _ _ _ _ _ _ _ Hh). }
  rewrite shape_sigmoid, shape_add by (rewrite Hrx, Hrh; reflexivity).
  exact Hrx.
Qed.

(** X15: which memory bank a three-dimensional cell needs.  For a cell
    with [conv_ndims=3] and layer normalisation, an input of shape (batch,
    depth, height, width, channels) and a hidden state of the same batch
    and spatial dimensions, a call returns only if the memory bank
    [eidetic_cell] has five dimensions, the last three being the height
    and the width of the input and the [output_channels] of the cell. *)
Theorem call_3d_returns_only_if (self : EideticLSTMCell) inputs hidden cell gm e n
    b d h w ci ch r k :
  _conv_ndims self = 3 -> _layer_norm self = true ->
  shape inputs = [b; d; h; w; ci] -> shape hidden = [b; d; h; w; ch] ->
  EideticLSTMCell_call self inputs hidden cell gm e n = (Ok r, k) ->
  exists eb el, shape e = [eb; el; h; w; _output_channels self].
Proof.
  intros Hnd Hln Hx Hh Hcall.
  pose proof (shape_r_t self inputs hidden n b d h w ci ch Hnd Hx Hh) as Hr.
  pose proof (call_outcome self inputs hidden cell gm e n) as H.
  rewrite Hcall in H. destruct r as [[o c'] m].
  destruct H as (_ & _ & (b' & w' & h' & c & Hc) & _).
  destruct (attn_checks_inv _ _ _ _ _ _ _ Hc) as (Hq & Hk & _).
  rewrite Hr in Hq. destruct Hq as [Hq | [l Hq]]; [discriminate |].
  injection Hq as -> -> -> -> ->. exact Hk.
Qed.
End Gate.

End E3DMore.

(** ** The extra facts about the cell over the free framework *)

Module E3DMoreExamples.
Import E3D E3DFacts E3DMore Free Examples.

(** X3 at two calls of a three-dimensional cell that differ in the hidden
    state, the cell state and the memory bank. *)
Lemma global_memory_update_witness :
  exists out c m k out' c' m' k',
    EideticLSTMCell_call (cell3d true) x_in h_in c_in m_in e_in 0%nat
    = (Ok (out, c, m), k)
    /\ EideticLSTMCell_call (cell3d true) x_in h_alt c_alt m_in e_alt 0%nat
       = (Ok (out', c', m'), k')
    /\ c <> c'
    /\ m = spec_new_global_memory (cell3d true) x_in m_in 0
    /\ m' = m.
Proof.
  do 8 eexists.
  split; [vm_compute; reflexivity |]. split; [vm_compute; reflexivity |].
  split; [discriminate |].
  eapply (global_memory_update (F := FreeFluid) (cell3d true) x_in m_in 0%nat
            h_in c_in e_in _ _ _ _ h_alt c_alt e_alt);
    vm_compute; reflexivity.
Defined.

(** X4 at a call of a three-dimensional cell. *)
Lemma hidden_output_witness :
  exists out c m k,
    EideticLSTMCell_call (cell3d true) x_in h_in c_in m_in e_in 0%nat
    = (Ok (out, c, m), k)
    /\ out = spec_output (cell3d true) x_in h_in c m 0.
Proof.
  do 4 eexists. split; [vm_compute; reflexivity |].
  eapply (hidden_output (F := FreeFluid) (cell3d true) x_in h_in c_in m_in e_in 0%nat).
  vm_compute. reflexivity.
Defined.

(** X5 at two cells that differ in [norm_gain], [norm_shift], [input_shape]
    and [name]. *)
Lemma call_ignores_unused_attributes_witness :
  cell3d_other <> cell3d true
  /\ EideticLSTMCell_call cell3d_other x_in h_in c_in m_in e_in 0%nat
     = EideticLSTMCell_call (cell3d true) x_in h_in c_in m_in e_in 0%nat.
Proof.
  split; [discriminate |].
  apply (call_ignores_unused_attributes (F := FreeFluid)); reflexivity.
Defined.

(** X7 at the cell [Eidetic3DLSTMCell] builds for clips of two frames. *)
Lemma attributes_read_back_witness :
  getattr (cell3d true) "_output_channels" = Some (AInt 5)
  /\ getattr (cell3d true) "_norm_gain" = Some (AFloat "1.0")
  /\ output_size (cell3d true) = None
  /\ state_size (cell3d true) = None.
Proof.
  destruct (attributes_read_back 3 [2; 4; 4; 3] 5 (PTuple [2; 3; 3]) true
              "1.0" "0.0" "1.0" "eidetic_3d_lstm_cell" (cell3d true) eq_refl)
    as (_ & _ & H1 & _ & _ & H2 & _ & _ & _ & H3 & H4).
  repeat split; assumption.
Defined.

(** The free framework infers the shapes of the gates the laws ask for. *)
#[export] Instance FreeFluid_gate_laws : FluidGateLaws FreeFluid.
Proof.
  split.
  - intros p x oc k b d h w c Hx. cbn in *. rewrite Hx. reflexivity.
  - reflexivity.
  - intros x num i l q Hnum Hx. cbn in *. unfold free_split_section, set_dim, dim_at, axis_of.
    cbn [node_shape]. rewrite Hx, length_app. cbn [length Z.ltb Z.compare].
    replace (Z.to_nat (-1 + Z.of_nat (length l + 1))) with (length l + 0)%nat by lia.
    rewrite app_nth2_plus, insert_app_r. cbn.
    rewrite Z.mul_comm, Z.div_mul by lia. reflexivity.
  - reflexivity.
  - reflexivity.
Qed.

(** X15 at a three-dimensional cell on clips of two frames of 4 x 4
    pixels: the call returns, and its memory bank has the shape. *)
Lemma call_3d_returns_only_if_witness :
  (exists r k,
      EideticLSTMCell_call (cell3d true) x_in h_in c_in m_in e_in 0%nat = (Ok r, k))
  /\ exists eb el, shape e_in = [eb; el; 4; 4; 5].
Proof.
  assert (Hcall : exists r k,
             EideticLSTMCell_call (cell3d true) x_in h_in c_in m_in e_in 0%nat = (Ok r, k))
    by (do 2 eexists; vm_compute; reflexivity).
  split; [exact Hcall |].
  destruct Hcall as (r & k & Hcall).
  exact (call_3d_returns_only_if (F := FreeFluid) (cell3d true) x_in h_in c_in m_in
           e_in 0%nat 1 2 4 4 3 5 r k eq_refl eq_refl eq_refl eq_refl Hcall).
Defined.

(** X2 at a call of a three-dimensional cell that returns. *)
Lemma call_returns_only_if_witness :
  (exists r k,
      EideticLSTMCell_call (cell3d true) x_in h_in c_in m_in e_in 0%nat = (Ok r, k))
  /\ _layer_norm (cell3d true) = true
  /\ exists eb el w h c, shape e_in = [eb; el; w; h; c].
Proof.
  assert (Hcall : exists r k,
             EideticLSTMCell_call (cell3d true) x_in h_in c_in m_in e_in 0%nat = (Ok r, k))
    by (do 2 eexists; vm_compute; reflexivity).
  split; [exact Hcall |].
  destruct Hcall as (r & k & Hcall).
  destruct (call_returns_only_if (F := FreeFluid) (cell3d true) x_in h_in c_in m_in
              e_in 0%nat r k Hcall) as (Hln & _ & b & w & h & c & _ & eb & el & He).
  split; [exact Hln |]. exists eb, el, w, h, c. exact He.
Defined.

End E3DMoreExamples.

(** ** More about the ECO network: the state a call leaves, its failures
    and the channels of its layers *)

Module ECOMore.
Import ECO ECOFacts.

Section Facts.
Context {P : PaddleNN} {L : PaddleRankLaws P}.
























(** X8: [forward] needs a video of at least five dimensions.  A call
    returns only if its input has at least five dimensions; on an input of
    fewer (a batch of images, as in the docstring of the class) it raises
    [IndexError] in its first line, before any layer is applied, and leaves
    the network as it was. *)
Theorem forward_needs_five_dimensions (inputs : Tensor) (label : option Tensor)
    (w : World) :
  (forall r w', GoogLeNet_forward inputs label w = (Ok r, w') ->
                (5 <= rank inputs)%nat)
  /\ ((rank inputs < 5)%nat ->
      GoogLeNet_forward inputs label w
      = (Raise (IndexError "list index out of range"), w)).
Proof.
  split; [| apply forward_low_rank].
  intros r w' Hr.
  destruct (le_lt_dec 5 (rank inputs)) as [H | H]; [exact H |].
  rewrite (forward_low_rank inputs label w H) in Hr. discriminate.
Qed.








End Facts.

Section Channels.
Context {P : PaddleNN} {L : PaddleRankLaws P} {C : PaddleChannelLaws P}.

(** The channels read off the configuration are those of the tensors. *)
Lemma channels_of_sound (l : Layer) :
  forall x c,
    rank x = 4%nat -> channels_of l (dim x 1) = Some c ->
    channels_match l x = true /\ dim (Layer_call l x) 1 = c.
Proof.
  induction l as [cv b | k s p | k s p | o | ls IH | b1 b2 b3 b4 IH1 IH2 IH3 IH4
                 | b1 b2 b3 IH1 IH2 IH3 | b1 b2 b3 b4 IH1 IH2 IH3 IH4
                 | b1 b2 b3 b4 IH1 IH2 IH3 IH4]
    using Layer_nested_ind; intros x c Hx; cbn [channels_of channels_match Layer_call].
  - destruct ((dim x 1 =? in_channels cv) && (num_features b =? out_channels cv));
      [| discriminate].
    intros [= <-]. split; [reflexivity |]. unfold ConvBNLayer_forward.
    rewrite channels_relu, channels_BatchNorm2D, channels_relu.
    apply channels_Conv2D. exact Hx.
  - intros [= <-]. split; [reflexivity | apply channels_AvgPool2D; exact Hx].
  - intros [= <-]. split; [reflexivity | apply channels_MaxPool2D; exact Hx].
  - intros [= <-]. split; [reflexivity | apply channels_AdaptiveAvgPool2D; exact Hx].
  - unfold Sequential_forward. revert x Hx.
    induction IH as [| l ls Hl _ IHls]; intros x Hx; cbn [fold_left Sequential_match].
    + intros [= <-]. split; reflexivity.
    + destruct (channels_of l (dim x 1)) as [c1 |] eqn:E1.
      * destruct (Hl x c1 Hx E1) as [Hm <-]. rewrite Hm. cbn [andb].
        apply IHls. rewrite rank_Layer_call. exact Hx.
      * intros H. exfalso. clear -H.
        induction ls as [| l' ls' IH']; cbn in H; [discriminate | auto].
  - destruct (channels_of b1 (dim x 1)) as [c1 |] eqn:E1; [| discriminate].
    destruct (channels_of b2 (dim x 1)) as [c2 |] eqn:E2; [| discriminate].
    destruct (channels_of b3 (dim x 1)) as [c3 |] eqn:E3; [| discriminate].
    destruct (channels_of b4 (dim x 1)) as [c4 |] eqn:E4; [| discriminate].
    intros [= <-].
    destruct (IH1 x c1 Hx E1) as [-> <-]. destruct (IH2 x c2 Hx E2) as [-> <-].
    destruct (IH3 x c3 Hx E3) as [-> <-]. destruct (IH4 x c4 Hx E4) as [-> <-].
    split; [reflexivity |]. unfold Inception_forward.
    rewrite channels_concat by (rewrite rank_Layer_call; exact Hx). cbn. lia.
  - destruct (channels_of b1 (dim x 1)) as [c1 |] eqn:E1; [| discriminate].
    destruct (channels_of b2 (dim x 1)) as [c2 |] eqn:E2; [| discriminate].
    destruct (channels_of b3 (dim x 1)) as [c3 |] eqn:E3; [| discriminate].
    intros [= <-].
    destruct (IH1 x c1 Hx E1) as [-> <-]. destruct (IH2 x c2 Hx E2) as [-> <-].
    destruct (IH3 x c3 Hx E3) as [-> <-].
    split; [reflexivity |]. unfold Inception4e_forward.
    rewrite channels_concat by (rewrite rank_Layer_call; exact Hx). cbn. lia.
  - destruct (channels_of b1 (dim x 1)) as [c1 |] eqn:E1; [| discriminate].
    destruct (channels_of b2 (dim x 1)) as [c2 |] eqn:E2; [| discriminate].
    destruct (channels_of b3 (dim x 1)) as [c3 |] eqn:E3; [| discriminate].
    destruct (channels_of b4 (dim x 1)) as [c4 |] eqn:E4; [| discriminate].
    intros [= <-].
    destruct (IH1 x c1 Hx E1) as [-> <-]. destruct (IH2 x c2 Hx E2) as [-> <-].
    destruct (IH3 x c3 Hx E3) as [-> <-]. destruct (IH4 x c4 Hx E4) as [-> <-].
    split; [reflexivity |]. unfold Inception5a_forward.
    rewrite channels_concat by (rewrite rank_Layer_call; exact Hx). cbn. lia.
  - destruct (channels_of b1 (dim x 1)) as [c1 |] eqn:E1; [| discriminate].
    destruct (channels_of b2 (dim x 1)) as [c2 |] eqn:E2; [| discriminate].
    destruct (channels_of b3 (dim x 1)) as [c3 |] eqn:E3; [| discriminate].
    destruct (channels_of b4 (dim x 1)) as [c4 |] eqn:E4; [| discriminate].
    intros [= <-].
    destruct (IH1 x c1 Hx E1) as [-> <-]. destruct (IH2 x c2 Hx E2) as [-> <-].
    destruct (IH3 x c3 Hx E3) as [-> <-]. destruct (IH4 x c4 Hx E4) as [-> <-].
    split; [reflexivity |]. unfold Inception5b_forward.
    rewrite channels_concat by (rewrite rank_Layer_call; exact Hx). cbn. lia.
Qed.


Lemma Inception3c_channels_sound (blk : Inception3c) (x : Tensor) c1 c2 c3 c4 :
  rank x = 4%nat ->
  channels_of (branch1 blk) (dim x 1) = Some c1 ->
  channels_of (branch2 blk) (dim x 1) = Some c2 ->
  channels_of (branch3 blk) c2 = Some c3 ->
  channels_of (branch4 blk) (dim x 1) = Some c4 ->
  Inception3c_match blk x = true
  /\ dim (fst (Inception3c_forward Layer_call blk x)) 1 = c1 + c3 + c4
  /\ dim (snd (Inception3c_forward Layer_call blk x)) 1 = c2.
Proof.
  intros Hx H1 H2 H3 H4.
  destruct (channels_of_sound _ x c1 Hx H1) as [M1 D1].
  destruct (channels_of_sound _ x c2 Hx H2) as [M2 D2].
  destruct (channels_of_sound _ x c4 Hx H4) as [M4 D4].
  rewrite <- D2 in H3.
  destruct (channels_of_sound _ (Layer_call (branch2 blk) x) c3
              ltac:(rewrite rank_Layer_call; exact Hx) H3) as [M3 D3].
  unfold Inception3c_match, Inception3c_forward. cbn [fst snd].
  rewrite M1, M2, M3, M4.
  split; [reflexivity |]. split; [| exact D2].
  rewrite channels_concat by (rewrite rank_Layer_call; exact Hx).
  cbn. rewrite D1, D3, D4. lia.
Qed.

(** X13: the channel numbers written in [GoogLeNet.__init__] and in the
    constructors of the Inception blocks fit together.  In the network
    [__init__] builds, for any arguments, called on images of [channels]
    channels (3 or 2 times [seglen]), every convolution receives as many
    channels as it was built for and every batch normalisation as many as
    its convolution produces; the blocks hand on 320 channels to
    [Inception3c], 576 to the 2D trunk and 96 to the 3D network, then 608
    and 1024; and the last [Linear] layer is built for these 1024 features
    and 512 more, the features it expects of the 3D network. *)
Theorem network_channels_fit class_dim sn sl modality weight_devay n net n' (x : Tensor) :
  GoogLeNet_init class_dim sn sl modality weight_devay n = (Ok net, n') ->
  rank x = 4%nat -> dim x 1 = channels net ->
  let y1 := Layer_call (googLeNet_part1 net) x in
  let y2 := fst (Inception3c_forward Layer_call (before3d net) y1) in
  let y3d := snd (Inception3c_forward Layer_call (before3d net) y1) in
  let y3 := Layer_call (googLeNet_part2 net) y2 in
  let y4 := Layer_call (googLeNet_part3 net) y3 in
  channels net = (if String.eqb modality "RGB" then 3 * sl else 2 * sl)
  /\ channels_match (googLeNet_part1 net) x = true /\ dim y1 1 = 320
  /\ Inception3c_match (before3d net) y1 = true /\ dim y2 1 = 576 /\ dim y3d 1 = 96
  /\ channels_match (googLeNet_part2 net) y2 = true /\ dim y3 1 = 608
  /\ channels_match (googLeNet_part3 net) y3 = true /\ dim y4 1 = 1024
  /\ in_features (out net) = dim y4 1 + 512.
Proof.
  unfold GoogLeNet_init, Inception_init, Inception3c_init, Inception4e_init,
    Inception5a_init, Inception5b_init, ConvBNLayer_init, bind, fresh, ret.
  cbv beta iota.
  destruct (ResNet3D_init "resnet" "RGB" 96 _) as [[r | e] m]; [| discriminate].
  intros [= <- _]. cbn [channels googLeNet_part1 before3d googLeNet_part2 googLeNet_part3 out
                        in_features].
  set (ch := if String.eqb modality "RGB" then 3 * sl else 2 * sl).
  intros Hx Hch. cbv zeta.
  split; [reflexivity |].
  match goal with
  | |- channels_match ?p1 x = true /\ _ =>
    destruct (channels_of_sound p1 x 320 Hx) as [M1 D1]
  end.
  { rewrite Hch. cbn. rewrite Z.eqb_refl. reflexivity. }
  split; [exact M1 |]. split; [exact D1 |].
  match goal with
  | |- Inception3c_match ?blk ?y1 = true /\ _ =>
    assert (Hy1 : rank y1 = 4%nat) by (rewrite rank_Layer_call; exact Hx);
    destruct (Inception3c_channels_sound blk y1 160 96 96 320 Hy1) as (M2 & D2 & D3);
    [rewrite ?D1; reflexivity .. |]
  end.
  split; [exact M2 |]. split; [exact D2 |]. split; [exact D3 |].
  match goal with
  | |- channels_match ?p2 ?y2 = true /\ _ =>
    assert (Hy2 : rank y2 = 4%nat)
      by (unfold Inception3c_forward; cbn [fst];
          rewrite rank_concat, !rank_Layer_call; exact Hx);
    destruct (channels_of_sound p2 y2 608 Hy2) as [M3 D4]; [rewrite D2; reflexivity |]
  end.
  split; [exact M3 |]. split; [exact D4 |].
  match goal with
  | |- channels_match ?p3 ?y3 = true /\ _ =>
    assert (Hy3 : rank y3 = 4%nat) by (rewrite rank_Layer_call; exact Hy2);
    destruct (channels_of_sound p3 y3 1024 Hy3) as [M4 D5]; [rewrite D4; reflexivity |]
  end.
  split; [exact M4 |]. split; [exact D5 |]. rewrite D5. reflexivity.
Qed.
End Channels.

Section Head.
Context {P : PaddleNN} {L : PaddleRankLaws P} {H : PaddleHeadLaws P}.

(** The fused prediction is a matrix with a column for each class. *)
Lemma shape_spec_fuse (net : GoogLeNet) (f2d f3d : Tensor) :
  exists d, shape (spec_fuse net f2d f3d) = [d; out_features (out net)].
Proof.
  unfold spec_fuse, segment_average.
  rewrite shape_softmax.
  set (y := concat _ 1).
  assert (Hy : rank y = 2%nat).
  { unfold y. rewrite rank_concat. apply rank_mean. apply rank_reshape. }
  destruct (shape y) as [| a [| b [| c s]]] eqn:E; try discriminate.
  exists a. apply (shape_Linear _ _ a b E).
Qed.

(** X16: the prediction has a column for each class.  On a network
    [__init__] built for [class_dim] classes (or such a network after any
    calls, its last layer being the same), with a well-formed buffer, the
    prediction of a call that returns is a tensor of two dimensions whose
    second dimension is [class_dim], and the last layer is kept. *)
Theorem prediction_shape class_dim sn sl modality weight_devay n net n'
    (inputs : Tensor) (label : option Tensor) (w : World) out_final acc w' :
  GoogLeNet_init class_dim sn sl modality weight_devay n = (Ok net, n') ->
  out (self w) = out net ->
  1 <= seg_num (self w) -> buffer_ok w ->
  GoogLeNet_forward inputs label w = (Ok (out_final, acc), w') ->
  (exists d, shape out_final = [d; class_dim])
  /\ out (self w') = out net.
Proof.
  intros Hinit Hout Hn Hok Hret.
  assert (Hrank : (5 <= rank inputs)%nat).
  { destruct (le_lt_dec 5 (rank inputs)) as [Hr | Hr]; [exact Hr |].
    rewrite (forward_low_rank inputs label w Hr) in Hret. discriminate. }
  assert (Hcd : out_features (out net) = class_dim).
  { revert Hinit.
    unfold GoogLeNet_init, Inception_init, Inception3c_init, Inception4e_init,
      Inception5a_init, Inception5b_init, ConvBNLayer_init, bind, fresh, ret.
    cbv beta iota.
    destruct (ResNet3D_init "resnet" "RGB" 96 _) as [[r | e] m]; [| discriminate].
    intros [= <- _]. reflexivity. }
  destruct (forward_step inputs label w Hrank Hn Hok)
    as (objs' & t & ts & Hfwd & _).
  cbn zeta in Hfwd. rewrite Hfwd in Hret. injection Hret as <- _ <-.
  destruct (shape_spec_fuse (self w) (spec_features_2d (self w) inputs)
              (spec_features_3d (self w) (spec_join t ts))) as [d Hd].
  split; [| exact Hout].
  exists d. rewrite Hd, Hout, Hcd. reflexivity.
Qed.
End Head.

End ECOMore.

(** ** The extra facts about the network over the free framework *)

Module ECOMoreRuns.
Import ECO ECOFacts ECOMore Free Examples ECORuns.

(** The free framework infers the channels the laws ask for. *)
#[export] Instance FreePaddle_channel_laws : PaddleChannelLaws FreePaddle.
Proof.
  split; intros; cbn in *; unfold dim, free_concat, unary, set_dim, dim_at, axis_of; cbn;
    try reflexivity;
    destruct (node_shape x) as [| a [| b' [| c' [| d [| e s']]]]];
    try discriminate; reflexivity.
Qed.

(** X8 at a new network of two segments, on the batch of images of the
    docstring. *)
Lemma forward_needs_five_dimensions_witness :
  exists w,
    new_world 101 2 1 "RGB" = Some w
    /\ GoogLeNet_forward images None w
       = (Raise (IndexError "list index out of range"), w).
Proof.
  eexists.
  match goal with
  | |- ?nw = Some ?w /\ _ =>
    let v := eval vm_compute in nw in
    match v with
    | Some ?w0 =>
      unify w w0;
      pose proof (forward_needs_five_dimensions (P := FreePaddle) images None w0) as Hi
    end
  end.
  split; [vm_compute; reflexivity |].
  apply (proj2 Hi). cbn. lia.
Defined.





(** X13 at the network of the default configuration, on the frames of one
    video of two segments. *)
Lemma network_channels_fit_witness :
  exists net n',
    GoogLeNet_init (P := FreePaddle) 101 24 1 "RGB" None 0%nat = (Ok net, n')
    /\ channels_match (googLeNet_part1 net) frames = true
    /\ dim (Layer_call (googLeNet_part1 net) frames) 1 = 320
    /\ Inception3c_match (before3d net) (Layer_call (googLeNet_part1 net) frames) = true
    /\ in_features (out net) = 1536.
Proof.
  match goal with
  | |- exists net n', ?init = (Ok net, n') /\ _ =>
    let v := eval vm_compute in init in
    match v with
    | (Ok ?net0, ?n0) =>
      exists net0, n0;
      assert (Hinit : init = (Ok net0, n0)) by (vm_compute; reflexivity);
      pose proof (network_channels_fit (P := FreePaddle) 101 24 1 "RGB" None 0%nat
                    net0 n0 frames Hinit eq_refl eq_refl) as H;
      destruct H as (_ & H1 & H2 & H3 & _ & _ & _ & _ & _ & H4 & H5)
    end
  end.
  split; [exact Hinit |]. split; [exact H1 |]. split; [exact H2 |]. split; [exact H3 |].
  rewrite H5, H4. reflexivity.
Defined.

(** The free framework infers the shapes of the last layers the laws ask
    for. *)
#[export] Instance FreePaddle_head_laws : PaddleHeadLaws FreePaddle.
Proof.
  split.
  - intros x Hx. cbn in *. unfold free_mean. cbn [node_shape].
    destruct (node_shape x) as [| a [| b [| c [| d s]]]]; try discriminate. reflexivity.
  - intros l x a b Hx. cbn in *. rewrite Hx. reflexivity.
  - reflexivity.
Qed.

(** X16 at the first call of a new network of two segments for 101
    classes, which returns. *)
Lemma prediction_shape_witness :
  exists w out_final acc w' d,
    new_world 101 2 1 "RGB" = Some w
    /\ GoogLeNet_forward (video "x") None w = (Ok (out_final, acc), w')
    /\ shape out_final = [d; 101].
Proof.
  eexists.
  match goal with
  | |- exists out_final acc w' d, ?nw = Some ?w /\ _ =>
    let v := eval vm_compute in nw in
    match v with
    | Some ?w0 =>
      unify w w0;
      assert (Hinit : exists n', GoogLeNet_init (P := FreePaddle) 101 2 1 "RGB" None 0%nat
                                 = (Ok (self w0), n'))
        by (eexists; vm_compute; reflexivity);
      destruct Hinit as [n' Hinit];
      assert (Hn : 1 <= seg_num (self w0)) by (cbn; lia);
      assert (Hok : buffer_ok w0) by (split; [left; reflexivity | constructor]);
      destruct (forward_step (P := FreePaddle) (video "x") None w0) as (objs' & t & ts & Hfwd & _);
      [cbn; lia | exact Hn | exact Hok |];
      cbn zeta in Hfwd;
      pose proof (prediction_shape (P := FreePaddle) 101 2 1 "RGB" None 0%nat (self w0) n'
                    (video "x") None w0 _ _ _ Hinit eq_refl Hn Hok Hfwd) as Hp
    end
  end.
  destruct Hp as ([d Hshape] & _).
  eexists _, _, _, d. split; [vm_compute; reflexivity |].
  split; [exact Hfwd | exact Hshape].
Defined.

End ECOMoreRuns.
